(** * The function registry and its endpoints (backend/main.py)

    A shallow embedding of the FastAPI module [backend/main.py]: the in-memory
    registry [functions], the start-up hook and the request handlers that
    look a function up, guard it and hand it to the container layer.

    The container layer ([run_function_docker]), the Docker daemon and the
    SQLite connection are collaborators of this module; they appear here as
    functions over an abstract external world.  What they return is a dynamic
    Python value, because [main.py] destructures it at run time. *)

From Stdlib Require Import ZArith String List Lia.
From stdpp Require Import base tactics option list strings gmap.

Local Open Scope string_scope.
Local Open Scope Z_scope.
Local Set Warnings "-register-all".

(** ** Python values and exceptions *)

(** The values that cross the boundary between [main.py] and its
    collaborators.  A [PFloat] is an IEEE double given by its bit pattern;
    this module only passes such numbers along. *)
Inductive pyval : Type :=
| PNone
| PBool (b : bool)
| PInt (n : Z)
| PFloat (bits : Z)
| PStr (s : string)
| PTuple (items : list pyval)
| PList (items : list pyval)
| PDict (items : list (string * pyval)).

(** The exception classes [main.py] tells apart in its [except] clauses, the
    ones the interpreter raises on its behalf, one tag for every other
    subclass of [Exception], and one for what is a [BaseException] only
    (KeyboardInterrupt, SystemExit, CancelledError). *)
Inductive exn_class : Type :=
| CalledProcessError
| FileNotFoundError
| RuntimeError
| ValueError
| SqliteError
| TypeError
| KeyError
| IndexError
| AttributeError
| OtherException
| NonException.

(** A raised Python exception: its class and [str(e)]. *)
Record pyerr : Type := PyErr { err_class : exn_class; err_str : string }.

(** What a handler of [main.py] can raise: its own [HTTPException], or an
    exception it does not catch. *)
Inductive exn : Type :=
| HTTPException (status_code : Z) (detail : string)
| PyExc (e : pyerr).

Inductive outcome (E A : Type) : Type :=
| Return (a : A)
| Raise (e : E).
Arguments Return {E A} a.
Arguments Raise {E A} e.

Definition is_Exception (c : exn_class) : bool :=
  match c with NonException => false | _ => true end.

Definition is_ValueError (c : exn_class) : bool :=
  match c with ValueError => true | _ => false end.

Definition is_RuntimeError (c : exn_class) : bool :=
  match c with RuntimeError => true | _ => false end.

Definition is_FileNotFoundError (c : exn_class) : bool :=
  match c with FileNotFoundError => true | _ => false end.

Definition is_CalledProcessError (c : exn_class) : bool :=
  match c with CalledProcessError => true | _ => false end.

Definition is_sqlite3_Error (c : exn_class) : bool :=
  match c with SqliteError => true | _ => false end.

(** [type(v).__name__] *)
Definition type_name (v : pyval) : string :=
  match v with
  | PNone => "NoneType"
  | PBool _ => "bool"
  | PInt _ => "int"
  | PFloat _ => "float"
  | PStr _ => "str"
  | PTuple _ => "tuple"
  | PList _ => "list"
  | PDict _ => "dict"
  end.

(** A [str] is held as its UTF-8 bytes.  A byte of the form 10xxxxxx
    continues the code point that the bytes before it began. *)
Definition is_continuation (c : Ascii.ascii) : bool :=
  match c with
  | Ascii.Ascii _ _ _ _ _ _ b6 b7 => b7 && negb b6
  end.

Definition continues (s : string) : bool :=
  match s with
  | String c _ => is_continuation c
  | EmptyString => false
  end.

(** The code points of a [str], each as the bytes that encode it. *)
Fixpoint code_points (s : string) : list string :=
  match s with
  | EmptyString => []
  | String c rest =>
      if continues rest
      then match code_points rest with
           | tail :: others => String c tail :: others
           | [] => [String c EmptyString]
           end
      else String c EmptyString :: code_points rest
  end.

(** Iterating a [str] yields its code points as one-character strings. *)
Definition chars (s : string) : list pyval := PStr <$> code_points s.

(** [iter(v)]: the elements a value yields, [None] when it is not iterable. *)
Definition py_iter (v : pyval) : option (list pyval) :=
  match v with
  | PTuple items | PList items => Some items
  | PStr s => Some (chars s)
  | PDict items => Some (map (fun kv => PStr (fst kv)) items)
  | PNone | PBool _ | PInt _ | PFloat _ => None
  end.

(** [a, b = v] (CPython 3.11 to 3.13 wording of the messages). *)
Definition unpack2 (v : pyval) : outcome pyerr (pyval * pyval) :=
  match py_iter v with
  | None =>
      Raise (PyErr TypeError
               ("cannot unpack non-iterable " ++ type_name v ++ " object"))
  | Some [] =>
      Raise (PyErr ValueError "not enough values to unpack (expected 2, got 0)")
  | Some [_] =>
      Raise (PyErr ValueError "not enough values to unpack (expected 2, got 1)")
  | Some [a; b] => Return (a, b)
  | Some (_ :: _ :: _ :: _) =>
      Raise (PyErr ValueError "too many values to unpack (expected 2)")
  end.

Fixpoint dict_get (items : list (string * pyval)) (k : string) : option pyval :=
  match items with
  | [] => None
  | (k', v) :: rest => if String.eqb k' k then Some v else dict_get rest k
  end.

(** [v[k]] for a string key [k] (CPython 3.11 to 3.13 wording of the
    messages). *)
Definition subscript (v : pyval) (k : string) : outcome pyerr pyval :=
  match v with
  | PDict items =>
      match dict_get items k with
      | Some x => Return x
      | None => Raise (PyErr KeyError ("'" ++ k ++ "'"))
      end
  | PStr _ =>
      Raise (PyErr TypeError "string indices must be integers, not 'str'")
  | PTuple _ | PList _ =>
      Raise (PyErr TypeError
               (type_name v ++ " indices must be integers or slices, not str"))
  | PNone | PBool _ | PInt _ | PFloat _ =>
      Raise (PyErr TypeError
               ("'" ++ type_name v ++ "' object is not subscriptable"))
  end.

(** ** The registry *)

(** The pydantic model [Function]: a validated request body. *)
Record Function : Type := mkFunction {
  name : string;
  route : string;
  language : string;
  timeout : Z;
  runtime : string;
  settings : option (gmap string string)
}.

(** [function.dict()] with the ["id"] key added: one entry of [functions]. *)
Record function_data : Type := mkData {
  fn : Function;
  id : Z
}.

(** Position of index [i] in a Python list, negative indices counting from
    the end; [None] where Python raises IndexError. *)
Definition list_position {A : Type} (l : list A) (i : Z) : option nat :=
  let n := Z.of_nat (length l) in
  if (0 <=? i) && (i <? n) then Some (Z.to_nat i)
  else if (i <? 0) && (- n <=? i) then Some (Z.to_nat (n + i))
  else None.

(** [function.get("settings", {}).get("code")]: the key "settings" is always
    present in [function.dict()], so the default is never used, and a null
    settings value has no [get]. *)
Definition settings_code (f : function_data) : outcome pyerr (option string) :=
  match settings (fn f) with
  | Some d => Return (d !! "code")
  | None =>
      Raise (PyErr AttributeError "'NoneType' object has no attribute 'get'")
  end.

(** [not code] for [code] a string or [None]. *)
Definition not_code (code : option string) : bool :=
  match code with
  | None => true
  | Some s => String.eqb s ""
  end.

(** ** Collaborators, state and the handler monad *)

(** One call that leaves [main.py]. *)
Inductive Call : Type :=
| CallDockerInfo
| CallInitializeDatabase
| CallEnsureDockerImages
| CallPrewarmContainers (language runtime : string)
| CallRunFunction (code language : string) (timeout : Z) (runtime name : string)
| CallLatestMetrics (function_name : string).

(** A row of the query in [get_function_metrics]. *)
Record metrics_row : Type := mkRow {
  row_response_time : pyval;
  row_error : pyval;
  row_stdout : pyval;
  row_stderr : pyval;
  row_memory_usage : pyval;
  row_cpu_usage : pyval
}.

Section Server.

(** The world outside the process: the Docker daemon, its images and
    containers, and the SQLite file behind [conn]. *)
Context {W : Type}.

(** Modelled from the spec: the container layer [run_function_docker]
    ([run_function], [ensure_docker_images], [prewarm_containers],
    [initialize_database]) is imported by [main.py] but is not among the
    sources.  The spec has the engine accept a self-contained request and
    never consult shared registry state, so each collaborator is a function
    of its call arguments and of the external world only; it may return or
    raise.  [docker_info] is [subprocess.run(["docker", "info"], check=True)]
    and [latest_metrics] is the SELECT of [get_function_metrics] followed by
    [fetchone]. *)
Record Collaborators : Type := mkCollaborators {
  docker_info : W -> W * outcome pyerr unit;
  initialize_database : W -> W * outcome pyerr unit;
  ensure_docker_images : W -> W * outcome pyerr unit;
  prewarm_containers : string -> string -> W -> W * outcome pyerr unit;
  run_function :
    string -> string -> Z -> string -> string -> W -> W * outcome pyerr pyval;
  latest_metrics : string -> W -> W * outcome pyerr (option metrics_row)
}.

(** The module-level list [functions], the external world, and two ghost
    fields: the calls made to collaborators and the lines the start-up hook
    printed. *)
Record State : Type := mkState {
  functions : list function_data;
  world : W;
  calls : list Call;
  stdout : list string
}.

Definition M (E A : Type) : Type := State -> State * outcome E A.

Definition ret {E A : Type} (a : A) : M E A := fun s => (s, Return a).

Definition raise {E A : Type} (e : E) : M E A := fun s => (s, Raise e).

Definition bind {E A B : Type} (m : M E A) (k : A -> M E B) : M E B :=
  fun s =>
    match m s with
    | (s', Return a) => k a s'
    | (s', Raise e) => (s', Raise e)
    end.

(** [try: body except ...: handler]; the handler decides what it catches. *)
Definition try_except {E E' A : Type} (body : M E A) (handler : E -> M E' A)
  : M E' A :=
  fun s =>
    match body s with
    | (s', Return a) => (s', Return a)
    | (s', Raise e) => handler e s'
    end.

(** An interpreter-level step that may raise. *)
Definition lift {A : Type} (r : outcome pyerr A) : M pyerr A :=
  fun s => (s, r).

(** A handler body running code whose exceptions it does not catch. *)
Definition uncaught {A : Type} (m : M pyerr A) : M exn A :=
  try_except m (fun e => raise (PyExc e)).

Definition get_functions {E : Type} : M E (list function_data) :=
  fun s => (s, Return (functions s)).

Definition set_functions {E : Type} (fs : list function_data) : M E unit :=
  fun s => (mkState fs (world s) (calls s) (stdout s), Return tt).

Definition print {E : Type} (line : string) : M E unit :=
  fun s => (mkState (functions s) (world s) (calls s) (stdout s ++ [line]),
            Return tt).

(** Calling a collaborator: the world moves on and the call is recorded. *)
Definition extern {A : Type} (c : Call) (f : W -> W * outcome pyerr A)
  : M pyerr A :=
  fun s =>
    let '(w', r) := f (world s) in
    (mkState (functions s) w' (calls s ++ [c]) (stdout s), r).

End Server.

Arguments State W : clear implicits.
Arguments Collaborators W : clear implicits.
Arguments M W E A : clear implicits.

Declare Scope handler_scope.
Delimit Scope handler_scope with handler.
Notation "x <- m ;; k" := (bind m (fun x => k))
  (at level 100, m at next level, right associativity) : handler_scope.
Notation "m ;; k" := (bind m (fun _ => k))
  (at level 100, right associativity) : handler_scope.
Local Open Scope handler_scope.

(** ** The handlers *)

(** The [print] calls of the request handlers only write to the server log
    and cannot fail on the values at hand; they are left out.  Those of the
    start-up hook are kept in [stdout]. *)

Section Handlers.

Context {W : Type} (env : Collaborators W).

Definition not_found {A : Type} : M W exn A :=
  raise (HTTPException 404 "Function not found").

(** [func_id > len(functions) or func_id <= 0] *)
Definition out_of_range (func_id : Z) (fs : list function_data) : bool :=
  (func_id >? Z.of_nat (length fs)) || (func_id <=? 0).

(** [functions[i]] *)
Definition getitem (fs : list function_data) (i : Z) : M W exn function_data :=
  match list_position fs i ≫= (fun k => fs !! k) with
  | Some f => ret f
  | None => raise (PyExc (PyErr IndexError "list index out of range"))
  end.

(** The body of the second [try] block of [startup_event]. *)
Definition provisioning : M W pyerr unit :=
  extern CallInitializeDatabase (initialize_database env) ;;
  print "Database schema verified and initialized." ;;
  extern CallEnsureDockerImages (ensure_docker_images env) ;;
  print "Docker images ensured." ;;
  extern (CallPrewarmContainers "python" "runc")
         (prewarm_containers env "python" "runc") ;;
  extern (CallPrewarmContainers "python" "runsc")
         (prewarm_containers env "python" "runsc") ;;
  extern (CallPrewarmContainers "node" "runc")
         (prewarm_containers env "node" "runc") ;;
  extern (CallPrewarmContainers "node" "runsc")
         (prewarm_containers env "node" "runsc") ;;
  print "Pre-warming containers completed.".

Definition startup_event : M W pyerr unit :=
  print "Starting up FastAPI server..." ;;
  try_except
    (extern CallDockerInfo (docker_info env) ;;
     print "Docker is running and accessible.")
    (fun e =>
       if is_CalledProcessError (err_class e)
       then raise (PyErr RuntimeError "Docker is not running or accessible.")
       else raise e) ;;
  try_except provisioning
    (fun e =>
       if is_FileNotFoundError (err_class e)
       then raise (PyErr RuntimeError (err_str e))
       else if is_RuntimeError (err_class e)
       then raise (PyErr RuntimeError
                     ("Docker image build failed: " ++ err_str e))
       else if is_Exception (err_class e)
       then print ("Startup error: " ++ err_str e) ;;
            raise (PyErr RuntimeError ("Startup failed: " ++ err_str e))
       else raise e).

Definition created (func_id : Z) : pyval :=
  PDict [("message", PStr "Function created"); ("id", PInt func_id)].

Definition create_function (function : Function) : M W exn pyval :=
  fs <- get_functions ;;
  let func_id := Z.of_nat (length fs) + 1 in
  let function_data := mkData function func_id in
  set_functions (fs ++ [function_data]) ;;
  ret (created func_id).

Definition get_all_functions : M W exn (list function_data) :=
  get_functions.

Definition get_function (func_id : Z) : M W exn function_data :=
  fs <- get_functions ;;
  if out_of_range func_id fs then not_found
  else getitem fs (func_id - 1).

(** The response pairs the message with the stored entry. *)
Definition update_function (func_id : Z) (function : Function)
  : M W exn (string * function_data) :=
  fs <- get_functions ;;
  if out_of_range func_id fs then not_found
  else
    let updated_function := mkData function func_id in
    match list_position fs (func_id - 1) with
    | Some k => set_functions (<[k := updated_function]> fs)
    | None =>
        raise (PyExc (PyErr IndexError "list assignment index out of range"))
    end ;;
    ret ("Function updated", updated_function).

Definition deleted : pyval := PDict [("message", PStr "Function deleted")].

Definition delete_function (func_id : Z) : M W exn pyval :=
  fs <- get_functions ;;
  if out_of_range func_id fs then not_found
  else
    match list_position fs (func_id - 1) with
    | Some k => set_functions (delete k fs)
    | None => raise (PyExc (PyErr IndexError "pop index out of range"))
    end ;;
    ret deleted.

Definition no_code {A : Type} : M W exn A :=
  raise (HTTPException 400 "No code provided in function settings").

Definition call_run_function (code : string) (function : function_data)
    (backend : string) : M W pyerr pyval :=
  extern
    (CallRunFunction code (language (fn function)) (timeout (fn function))
       backend (name (fn function)))
    (run_function env code (language (fn function)) (timeout (fn function))
       backend (name (fn function))).

Definition run_function_endpoint (func_id : Z) : M W exn pyval :=
  fs <- get_functions ;;
  if out_of_range func_id fs then not_found
  else
    function <- getitem fs (func_id - 1) ;;
    code <- uncaught (lift (settings_code function)) ;;
    if not_code code then no_code
    else
      let code := default "" code in
      try_except
        (result <- call_run_function code function (runtime (fn function)) ;;
         pair <- lift (unpack2 result) ;;
         ret (PDict [("output", fst pair)]))
        (fun e =>
           if is_ValueError (err_class e)
           then raise (HTTPException 400 (err_str e))
           else if is_Exception (err_class e)
           then raise (HTTPException 500 ("Execution failed: " ++ err_str e))
           else raise (PyExc e)).

Definition metrics_of_row (r : metrics_row) : pyval :=
  PDict [("metrics",
          PDict [("response_time", row_response_time r);
                 ("error", row_error r);
                 ("stdout", row_stdout r);
                 ("stderr", row_stderr r);
                 ("memory_usage", row_memory_usage r);
                 ("cpu_usage", row_cpu_usage r)])].

Definition get_function_metrics (func_id : Z) : M W exn pyval :=
  fs <- get_functions ;;
  if out_of_range func_id fs then not_found
  else
    function <- getitem fs (func_id - 1) ;;
    let function_name := name (fn function) in
    try_except
      (result <- uncaught (extern (CallLatestMetrics function_name)
                             (latest_metrics env function_name)) ;;
       match result with
       | None =>
           raise (HTTPException 404
                    ("No metrics found for function " ++ function_name))
       | Some row => ret (metrics_of_row row)
       end)
      (fun e =>
         match e with
         | PyExc err =>
             if is_sqlite3_Error (err_class err)
             then raise (HTTPException 500
                           ("Failed to retrieve metrics: " ++ err_str err))
             else raise e
         | HTTPException _ _ => raise e
         end).

(** One entry of the [comparison] dictionary, read off a metrics value. *)
Definition comparison_entry (metrics output : pyval) : outcome pyerr pyval :=
  match subscript metrics "response_time" with
  | Raise e => Raise e
  | Return response_time =>
      match subscript metrics "memory_usage" with
      | Raise e => Raise e
      | Return memory_usage =>
          match subscript metrics "cpu_usage" with
          | Raise e => Raise e
          | Return cpu_usage =>
              Return (PDict [("response_time", response_time);
                             ("memory_usage", memory_usage);
                             ("cpu_usage", cpu_usage);
                             ("output", output)])
          end
      end
  end.

Definition compare_performance (func_id : Z) : M W exn pyval :=
  fs <- get_functions ;;
  if out_of_range func_id fs then not_found
  else
    function <- getitem fs (func_id - 1) ;;
    code <- uncaught (lift (settings_code function)) ;;
    if not_code code then no_code
    else
      let code := default "" code in
      uncaught
        (runc <- call_run_function code function "runc" ;;
         runc_pair <- lift (unpack2 runc) ;;
         runsc <- call_run_function code function "runsc" ;;
         runsc_pair <- lift (unpack2 runsc) ;;
         runc_entry <- lift (comparison_entry (snd runc_pair) (fst runc_pair)) ;;
         runsc_entry <-
           lift (comparison_entry (snd runsc_pair) (fst runsc_pair)) ;;
         ret (PDict [("comparison",
                      PDict [("runc", runc_entry); ("runsc", runsc_entry)])])).

(** ** Vocabulary of the statements *)

(** [func_id] names a stored function, and [f] is that function. *)
Definition stored (s : State W) (func_id : Z) (f : function_data) : Prop :=
  0 < func_id ∧ functions s !! Z.to_nat (func_id - 1) = Some f.

Definition is_404 {A : Type} (r : outcome exn A) : Prop :=
  ∃ detail, r = Raise (HTTPException 404 detail).

Definition is_run_call (c : Call) : bool :=
  match c with CallRunFunction _ _ _ _ _ => true | _ => false end.

(** The calls that reached the execution engine. *)
Definition engine_calls (cs : list Call) : list Call :=
  filter (fun c => is_run_call c = true) cs.

(** A handler left the registry as it was and did not call the engine. *)
Definition untouched (s s' : State W) : Prop :=
  functions s' = functions s
  ∧ engine_calls (calls s') = engine_calls (calls s).

(** The code of a stored function, when it has some. *)
Definition has_code (f : function_data) (source : string) : Prop :=
  ∃ d : gmap string string,
    settings (fn f) = Some d ∧ d !! "code" = Some source ∧ source ≠ "".

(** The call [run_function(code, language, timeout, backend, name, conn)]
    made for [f], as recorded and as answered in world [w]. *)
Definition run_call (f : function_data) (source backend : string) : Call :=
  CallRunFunction source (language (fn f)) (timeout (fn f)) backend
    (name (fn f)).

Definition run_answer (f : function_data) (source backend : string) (w : W)
  : W * outcome pyerr pyval :=
  run_function env source (language (fn f)) (timeout (fn f)) backend
    (name (fn f)) w.

(** The three values [compare_performance] reads off a metrics value. *)
Definition reads_metrics (metrics response_time memory_usage cpu_usage : pyval)
  : Prop :=
  subscript metrics "response_time" = Return response_time
  ∧ subscript metrics "memory_usage" = Return memory_usage
  ∧ subscript metrics "cpu_usage" = Return cpu_usage.

Definition entry (response_time memory_usage cpu_usage output : pyval)
  : pyval :=
  PDict [("response_time", response_time); ("memory_usage", memory_usage);
         ("cpu_usage", cpu_usage); ("output", output)].

Definition comparison (runc runsc : pyval) : pyval :=
  PDict [("comparison", PDict [("runc", runc); ("runsc", runsc)])].

(** Two stored functions carry the same execution request: code, language,
    timeout, backend and name. *)
Definition same_request (f1 f2 : function_data) : Prop :=
  settings_code f1 = settings_code f2
  ∧ language (fn f1) = language (fn f2)
  ∧ timeout (fn f1) = timeout (fn f2)
  ∧ runtime (fn f1) = runtime (fn f2)
  ∧ name (fn f1) = name (fn f2).

(** [func_id] is outside the registry. *)
Definition missing (s : State W) (func_id : Z) : Prop :=
  func_id <= 0 ∨ Z.of_nat (length (functions s)) < func_id.

(** A handler that raises 404 exactly at the range guard: the guard decides
    the 404, and a 404 leaves the state as it was. *)
Definition guarded_404 {A : Type} (r : State W * outcome exn A)
    (s : State W) (func_id : Z) : Prop :=
  (is_404 r.2 ↔ missing s func_id) ∧ (is_404 r.2 -> r.1 = s).

(** The metrics table has no row for the function that [func_id] names. *)
Definition no_metrics (s : State W) (func_id : Z) : Prop :=
  ∃ f w', stored s func_id f
          ∧ latest_metrics env (name (fn f)) (world s) = (w', Return None).

End Handlers.

(** ** Concrete collaborators and registries *)

Module Examples.

(** The sample world counts the containers that ran. *)
Definition sample_metrics : pyval :=
  PDict [("response_time", PInt 12); ("memory_usage", PInt 20);
         ("cpu_usage", PInt 3)].

Definition sample_result : pyval := PTuple [PStr "2"; sample_metrics].

Definition sample_row : metrics_row :=
  mkRow (PInt 12) (PInt 0) (PStr "2") (PStr "") (PInt 20) (PInt 3).

Definition ok (w : nat) : nat * outcome pyerr unit := (w, Return tt).

(** Every collaborator answers; the metrics table is empty. *)
Definition healthy : Collaborators nat :=
  mkCollaborators ok ok ok (fun _ _ => ok)
    (fun _ _ _ _ _ w => (S w, Return sample_result))
    (fun _ w => (w, Return None)).

(** The metrics table has a row for every name. *)
Definition with_metrics : Collaborators nat :=
  mkCollaborators ok ok ok (fun _ _ => ok)
    (fun _ _ _ _ _ w => (S w, Return sample_result))
    (fun _ w => (w, Return (Some sample_row))).

(** The run under runsc raises, the run under runc returns. *)
Definition runsc_fails : Collaborators nat :=
  mkCollaborators ok ok ok (fun _ _ => ok)
    (fun _ _ _ backend _ w =>
       if String.eqb backend "runsc"
       then (w, Raise (PyErr OtherException "container exited unexpectedly"))
       else (S w, Return sample_result))
    (fun _ w => (w, Return None)).

(** The run under runc raises, the run under runsc returns. *)
Definition runc_fails : Collaborators nat :=
  mkCollaborators ok ok ok (fun _ _ => ok)
    (fun _ _ _ backend _ w =>
       if String.eqb backend "runc"
       then (w, Raise (PyErr OtherException "container exited unexpectedly"))
       else (S w, Return sample_result))
    (fun _ w => (w, Return None)).

(** The image of one pair cannot be built. *)
Definition build_fails : Collaborators nat :=
  mkCollaborators ok ok
    (fun w => (w, Raise (PyErr RuntimeError "build of node/runsc failed")))
    (fun _ _ => ok)
    (fun _ _ _ _ _ w => (S w, Return sample_result))
    (fun _ w => (w, Return None)).

(** A result with the five components output, stdout, stderr, metrics and
    error, the metrics carrying four fields. *)
Definition five_components : pyval :=
  PTuple [PStr "2"; PStr "2"; PStr "";
          PDict [("responseTimeMs", PInt 12); ("memoryUsageMb", PInt 20);
                 ("cpuUsagePercent", PInt 3); ("errorFlag", PBool false)];
          PNone].

Definition returns_five : Collaborators nat :=
  mkCollaborators ok ok ok (fun _ _ => ok)
    (fun _ _ _ _ _ w => (S w, Return five_components))
    (fun _ w => (w, Return None)).

Definition add : Function :=
  mkFunction "add" "/add" "python" 5 "runc" (Some {["code" := "print(1+1)"]}).

Definition blank : Function :=
  mkFunction "blank" "/blank" "node" 5 "runsc" (Some {["code" := ""]}).

Definition codeless : Function :=
  mkFunction "codeless" "/codeless" "python" 5 "runc" (Some ∅).

Definition empty_server : State nat := mkState [] 0%nat [] [].

(** The registry after three POSTs to /functions/. *)
Definition server : State nat :=
  mkState [mkData add 1; mkData blank 2; mkData codeless 3] 0%nat [] [].

(** Another registry: the same request as [add] under another route and
    identifier, behind a function without code, with calls already made. *)
Definition sum : Function :=
  mkFunction "add" "/sum" "python" 5 "runc"
    (Some {["code" := "print(1+1)"; "memo" := "kept"]}).

Definition other_server : State nat :=
  mkState [mkData codeless 1; mkData sum 2] 0%nat [CallDockerInfo] ["up"].

End Examples.

(** * The execution engine, from the specification *)

Module Engine.

(** Modelled from the spec: the sandboxed execution engine (the pool manager
    and the execution orchestrator) is the module [run_function_docker], which
    is not among the sources.  The definitions of this module are written
    from the specification's data model (section 3), pool manager (4.2),
    execution orchestrator (4.3) and error taxonomy (7). *)
Definition PoolKey : Type := string * string.

(** An in-flight [execute] invocation. *)
Definition Caller : Type := nat.

Record ContainerSlot : Type := mkSlot {
  slot_id : nat;
  slot_key : PoolKey;
  executions : nat
}.


Record PoolConfig : Type := mkConfig {
  min_idle : nat;
  max_total : nat;
  reuse_budget : nat
}.

Inductive FailureKind : Type :=
| ImageBuildError
| PoolExhausted
| ContainerStartError
| TimeoutError
| RuntimeExecutionError
| SamplingError
| AmbiguousFailure.

(** What the pool asks of the container runtime. *)
Inductive Command : Type :=
| Start (slot : nat) (key : PoolKey)
| Inject (slot : nat) (code : string)
| Kill (slot : nat)
| Destroy (slot : nat).

Record Pool : Type := mkPool {
  idle : list ContainerSlot;
  leases : list (Caller * ContainerSlot);
  destroyed : list nat;
  next_id : nat;
  log : list Command
}.

Record ExecutionRequest : Type := mkRequest {
  code : string;
  language : string;
  timeout : Z;
  backend : string;
  function_name : string
}.

Record ExecutionResult : Type := mkResult {
  output : string;
  stdout : string;
  stderr : string;
  success : bool;
  failure : option FailureKind
}.

Record MetricsRecord : Type := mkMetrics {
  response_time_ms : Z;
  peak_memory_mb : Z;
  cpu_percent : Z;
  error_flag : bool;
  metrics_stdout : string;
  metrics_stderr : string
}.

(** What the injected code does in its container, as the runtime reports
    it: it exits after some milliseconds, it never exits, or the stream
    breaks. *)
Inductive Behaviour : Type :=
| Exits (after_ms : Z) (status : Z) (out err : string)
| Hangs
| StreamBreaks (after_ms : Z).

(** What the sampler saw over the window. *)
Record Usage : Type := mkUsage { memory_mb : Z; cpu : Z }.

Definition has_key (key : PoolKey) (sl : ContainerSlot) : bool :=
  bool_decide (slot_key sl = key).

Definition idle_queue (key : PoolKey) (p : Pool) : list ContainerSlot :=
  filter (fun sl => has_key key sl = true) (idle p).

Definition busy (key : PoolKey) (p : Pool) : list (Caller * ContainerSlot) :=
  filter (fun l => has_key key (snd l) = true) (leases p).

Definition total (key : PoolKey) (p : Pool) : nat :=
  (length (idle_queue key p) + length (busy key p))%nat.

(** The first idle slot of a key and the queue without it. *)
Fixpoint pop_idle (key : PoolKey) (l : list ContainerSlot)
  : option (ContainerSlot * list ContainerSlot) :=
  match l with
  | [] => None
  | sl :: rest =>
      if has_key key sl then Some (sl, rest)
      else match pop_idle key rest with
           | Some (found, rest') => Some (found, sl :: rest')
           | None => None
           end
  end.

Definition idle_ids (p : Pool) : list nat := slot_id <$> idle p.

Definition leased_ids (p : Pool) : list nat :=
  (fun l => slot_id (snd l)) <$> leases p.

(** Every identity the pool knows: idle, checked out, destroyed. *)
Definition slot_ids (p : Pool) : list nat :=
  idle_ids p ++ leased_ids p ++ destroyed p.


(** Identities are handed out once and below the counter. *)
Definition well_formed (p : Pool) : Prop :=
  NoDup (slot_ids p) ∧ Forall (fun i => (i < next_id p)%nat) (slot_ids p).

Definition empty_pool : Pool := mkPool [] [] [] 0 [].

Section Manager.

(** The configuration of each key, and whether the runtime manages to start
    the container with a given identity. *)
Variable config : PoolKey -> PoolConfig.
Variable boots : PoolKey -> nat -> bool.

(** One attempt to start a container; the identity is used up either way. *)
Definition start_container (key : PoolKey) (p : Pool)
  : Pool * option ContainerSlot :=
  let i := next_id p in
  if boots key i
  then (mkPool (idle p) (leases p) (destroyed p) (S i)
          (log p ++ [Start i key]),
        Some (mkSlot i key 0))
  else (mkPool (idle p) (leases p) (destroyed p) (S i) (log p), None).

(** ContainerStartError: one internal retry, then surfaced. *)
Definition start_with_retry (key : PoolKey) (p : Pool)
  : Pool * option ContainerSlot :=
  match start_container key p with
  | (p1, Some sl) => (p1, Some sl)
  | (p1, None) => start_container key p1
  end.

Definition add_idle (sl : ContainerSlot) (p : Pool) : Pool :=
  mkPool (idle p ++ [sl]) (leases p) (destroyed p) (next_id p) (log p).

Definition add_lease (c : Caller) (sl : ContainerSlot) (p : Pool) : Pool :=
  mkPool (idle p) (leases p ++ [(c, sl)]) (destroyed p) (next_id p) (log p).

(** One step of prewarming or replenishment: a new idle container for the
    key, unless the key is at its limit or the start fails. *)
Definition provision (key : PoolKey) (p : Pool) : Pool :=
  if (total key p <? max_total (config key))%nat
  then match start_container key p with
       | (p1, Some sl) => add_idle sl p1
       | (p1, None) => p1
       end
  else p.

Fixpoint provision_n (key : PoolKey) (k : nat) (p : Pool) : Pool :=
  match k with
  | O => p
  | S k' => provision_n key k' (provision key p)
  end.

(** Modelled from the spec: [prewarm(key, n)] of the absent pool manager
    (4.2); best effort, a start that fails is skipped. *)
Definition prewarm (key : PoolKey) (n : nat) (p : Pool) : Pool :=
  provision_n key (n - length (idle_queue key p)) p.

(** Modelled from the spec: the replenishment that [checkin] schedules in
    the absent pool manager (4.2), run when the idle count of the key is
    below the configured minimum. *)
Definition replenish (key : PoolKey) (p : Pool) : Pool :=
  if (length (idle_queue key p) <? min_idle (config key))%nat
  then provision key p
  else p.

(** Modelled from the spec: [checkout(key)] of the absent pool manager
    (4.2), on behalf of a caller: the first idle slot of the key, else a new
    container while the key is under its limit; exhaustion fails at once. *)
Definition checkout (c : Caller) (key : PoolKey) (p : Pool)
  : Pool * (FailureKind + ContainerSlot) :=
  match pop_idle key (idle p) with
  | Some (sl, rest) =>
      (add_lease c sl
         (mkPool rest (leases p) (destroyed p) (next_id p) (log p)),
       inr sl)
  | None =>
      if (total key p <? max_total (config key))%nat
      then match start_with_retry key p with
           | (p1, Some sl) => (add_lease c sl p1, inr sl)
           | (p1, None) => (p1, inl ContainerStartError)
           end
      else (p, inl PoolExhausted)
  end.

Definition release (sl : ContainerSlot) (p : Pool) : Pool :=
  mkPool (idle p)
    (filter (fun l => slot_id (snd l) ≠ slot_id sl) (leases p))
    (destroyed p) (next_id p) (log p).

Definition destroy (sl : ContainerSlot) (p : Pool) : Pool :=
  mkPool (idle p) (leases p) (slot_id sl :: destroyed p) (next_id p)
    (log p ++ [Destroy (slot_id sl)]).

(** Modelled from the spec: [checkin(slot, healthy)] of the absent pool
    manager (4.2): back to the idle queue when healthy and under the reuse
    budget, destroyed otherwise. *)
Definition checkin (sl : ContainerSlot) (healthy : bool) (p : Pool) : Pool :=
  let used := mkSlot (slot_id sl) (slot_key sl) (S (executions sl)) in
  if healthy && (executions used <? reuse_budget (config (slot_key sl)))%nat
  then add_idle used (release sl p)
  else destroy sl (release sl p).

(** The verdict of one run: the result, whether the container is healthy,
    whether its process was killed, and the elapsed milliseconds. *)
Record Verdict : Type := mkVerdict {
  result : ExecutionResult;
  healthy : bool;
  killed : bool;
  elapsed_ms : Z
}.

Definition timed_out (deadline : Z) : Verdict :=
  mkVerdict (mkResult "" "" "" false (Some TimeoutError)) false true deadline.

(** Modelled from the spec: steps 4 to 6 of the absent orchestrator (4.3),
    the race between the run and the deadline of [timeout] seconds.  A run
    that ends within the deadline succeeds on exit status zero and is a
    runtime-execution error otherwise, the container staying healthy; when
    the wait expires first the process is killed, the result is a timeout
    error and the container is not healthy; an ambiguous failure is not
    healthy either. *)
Definition settle (req : ExecutionRequest) (b : Behaviour) : Verdict :=
  let deadline := (timeout req * 1000)%Z in
  match b with
  | Exits after_ms status out err =>
      if (after_ms <=? deadline)%Z
      then if (status =? 0)%Z
           then mkVerdict (mkResult out out err true None) true false after_ms
           else mkVerdict
                  (mkResult out out err false (Some RuntimeExecutionError))
                  true false after_ms
      else timed_out deadline
  | Hangs => timed_out deadline
  | StreamBreaks after_ms =>
      if (after_ms <=? deadline)%Z
      then mkVerdict (mkResult "" "" "" false (Some AmbiguousFailure))
             false false after_ms
      else timed_out deadline
  end.

Definition record_kill (sl : ContainerSlot) (p : Pool) : Pool :=
  mkPool (idle p) (leases p) (destroyed p) (next_id p)
    (log p ++ [Kill (slot_id sl)]).

Definition record_inject (sl : ContainerSlot) (source : string) (p : Pool)
  : Pool :=
  mkPool (idle p) (leases p) (destroyed p) (next_id p)
    (log p ++ [Inject (slot_id sl) source]).

Definition metrics_of (v : Verdict) (u : Usage) : MetricsRecord :=
  mkMetrics (elapsed_ms v) (memory_mb u) (cpu u)
    (negb (success (result v))) (stdout (result v)) (stderr (result v)).

(** Modelled from the spec: steps 2 to 7 of [execute] in the absent
    orchestrator (4.3), for a slot that was checked out; [checkin] is called
    once, on every path. *)
Definition complete (sl : ContainerSlot) (req : ExecutionRequest)
    (b : Behaviour) (u : Usage) (p : Pool)
  : Pool * (ExecutionResult * MetricsRecord) :=
  let v := settle req b in
  let p1 := record_inject sl (code req) p in
  let p2 := if killed v then record_kill sl p1 else p1 in
  (checkin sl (healthy v) p2, (result v, metrics_of v u)).

Definition refused (kind : FailureKind) : ExecutionResult * MetricsRecord :=
  (mkResult "" "" "" false (Some kind), mkMetrics 0 0 0 true "" "").

(** Modelled from the spec: [execute(request)] of the absent orchestrator
    (4.3): check out, run, check in; a refused checkout is returned as a
    result with its failure kind. *)
Definition execute (c : Caller) (req : ExecutionRequest) (b : Behaviour)
    (u : Usage) (p : Pool) : Pool * (ExecutionResult * MetricsRecord) :=
  match checkout c (language req, backend req) p with
  | (p1, inl kind) => (p1, refused kind)
  | (p1, inr sl) => complete sl req b u p1
  end.

(** Modelled from the spec: the pool under concurrent callers (sections 4.2
    and 5).  Mutations of a queue happen under its exclusion scope, so each
    operation on the pool is one atomic step; steps of different callers
    interleave freely, and only the holder of a lease completes it. *)
Inductive step : Pool -> Pool -> Prop :=
| step_prewarm (key : PoolKey) (n : nat) (p : Pool) :
    step p (prewarm key n p)
| step_replenish (key : PoolKey) (p : Pool) :
    step p (replenish key p)
| step_checkout (c : Caller) (key : PoolKey) (p : Pool) :
    step p (fst (checkout c key p))
| step_complete (c : Caller) (sl : ContainerSlot) (req : ExecutionRequest)
    (b : Behaviour) (u : Usage) (p : Pool) :
    (c, sl) ∈ leases p ->
    step p (fst (complete sl req b u p)).

Definition reachable (p : Pool) : Prop := rtc step empty_pool p.

End Manager.


Definition sample_config (key : PoolKey) : PoolConfig := mkConfig 1 2 3.

Definition always_boots (key : PoolKey) (i : nat) : bool := true.


End Engine.

(** * Pre-warming at start-up, from the specification *)

Module Prewarming.

(** The world of the start-up hook: the pool of containers and the log of
    the starts that failed. *)
Record World : Type := mkWorld {
  pool : Engine.Pool;
  failures : list (Engine.PoolKey * nat)
}.

Section Prewarm.

Variable config : Engine.PoolKey -> Engine.PoolConfig.
Variable boots : Engine.PoolKey -> nat -> bool.

(** How many idle containers [prewarm_containers] asks for. *)
Variable count : nat.

(** Modelled from the spec: one start of [prewarm] in the absent pool manager
    (4.2), as [Engine.provision] makes it; a start that fails is logged with
    its key and the identity that was tried, and nothing is raised. *)
Definition attempt (key : Engine.PoolKey) (w : World) : World :=
  let p := pool w in
  if (Engine.total key p <? Engine.max_total (config key))%nat
  then match Engine.start_container boots key p with
       | (p1, Some sl) => mkWorld (Engine.add_idle sl p1) (failures w)
       | (p1, None) => mkWorld p1 (failures w ++ [(key, Engine.next_id p)])
       end
  else w.

Fixpoint attempts (key : Engine.PoolKey) (k : nat) (w : World) : World :=
  match k with
  | O => w
  | S k' => attempts key k' (attempt key w)
  end.

(** Modelled from the spec: [prewarm(language, backend, count) -> void] of the
    absent module [run_function_docker] (4.2 and 6), which [main.py] calls as
    [prewarm_containers(language, runtime)]: best effort, partial failures
    are logged, not fatal; it returns nothing and raises nothing. *)
Definition best_effort_prewarm (language runtime : string) (w : World)
  : World * outcome pyerr unit :=
  let key := (language, runtime) in
  (attempts key (count - length (Engine.idle_queue key (pool w))) w,
   Return tt).

(** The collaborators of [main.py] with the pre-warming of the spec. *)
Definition collaborators
    (docker init ensure : World -> World * outcome pyerr unit)
    (run : string -> string -> Z -> string -> string -> World
           -> World * outcome pyerr pyval)
    (latest : string -> World -> World * outcome pyerr (option metrics_row))
  : Collaborators World :=
  mkCollaborators docker init ensure best_effort_prewarm run latest.



End Prewarm.

(** No container can be started. *)
Definition never_boots (key : Engine.PoolKey) (i : nat) : bool := false.

Definition cold : World := mkWorld Engine.empty_pool [].

Definition answers (w : World) : World * outcome pyerr unit := (w, Return tt).

Definition sample : Collaborators World :=
  collaborators Engine.sample_config never_boots 2 answers answers answers
    (fun _ _ _ _ _ w => (w, Return Examples.sample_result))
    (fun _ w => (w, Return None)).

End Prewarming.

(** * The interface of the engine, from the specification *)

Module Interface.

(** Modelled from the spec: the metrics of the result of [execute] in the
    interface of the absent engine (section 6):
    metrics{responseTimeMs, memoryUsageMb, cpuUsagePercent, errorFlag}. *)
Record Metrics : Type := mkMetrics {
  responseTimeMs : Z;
  memoryUsageMb : Z;
  cpuUsagePercent : Z;
  errorFlag : bool
}.

(** Modelled from the spec: the result of [execute] in the interface of the
    absent engine (section 6): (output, stdout, stderr, metrics, error). *)
Record Result : Type := mkResult {
  output : string;
  stdout : string;
  stderr : string;
  metrics : Metrics;
  error : option Engine.FailureKind
}.

(** The result and the metrics record of the orchestrator, as the interface
    hands them out. *)
Definition present (r : Engine.ExecutionResult * Engine.MetricsRecord)
  : Result :=
  mkResult (Engine.output r.1) (Engine.stdout r.1) (Engine.stderr r.1)
    (mkMetrics (Engine.response_time_ms r.2) (Engine.peak_memory_mb r.2)
       (Engine.cpu_percent r.2) (Engine.error_flag r.2))
    (Engine.failure r.1).

(** Modelled from the spec: [execute(code, language, timeoutSeconds, backend,
    functionName)] of the absent engine (section 6), over the orchestrator of
    section 4.3. *)
Definition execute (config : Engine.PoolKey -> Engine.PoolConfig)
    (boots : Engine.PoolKey -> nat -> bool) (c : Engine.Caller)
    (code language : string) (timeoutSeconds : Z)
    (backend functionName : string) (b : Engine.Behaviour) (u : Engine.Usage)
    (p : Engine.Pool) : Engine.Pool * Result :=
  let r := Engine.execute config boots c
             (Engine.mkRequest code language timeoutSeconds backend
                functionName) b u p in
  (r.1, present r.2).

End Interface.

(** * The rest of the module: aggregated metrics and registry vocabulary *)

(** A row of the GROUP BY query in [get_all_metrics]. *)
Record aggregate_row : Type := mkAggregate {
  agg_function_name : pyval;
  agg_runtime : pyval;
  agg_avg_response_time : pyval;
  agg_error_count : pyval;
  agg_avg_memory_usage : pyval;
  agg_avg_cpu_usage : pyval
}.

Definition aggregate_entry (row : aggregate_row) : pyval :=
  PDict [("function_name", agg_function_name row);
         ("runtime", agg_runtime row);
         ("avg_response_time", agg_avg_response_time row);
         ("error_count", agg_error_count row);
         ("avg_memory_usage_mb", agg_avg_memory_usage row);
         ("avg_cpu_usage_percent", agg_avg_cpu_usage row)].

Section Aggregates.

Context {W : Type}.

(** [conn.execute] of the aggregate SELECT followed by [fetchall]: the rows,
    or the exception the connection raises. *)
Variable all_metrics : W -> W * outcome pyerr (list aggregate_row).

(** The query of [get_all_metrics]; the world moves on, the registry and the
    record of the other collaborators stay. *)
Definition query_all_metrics : M W pyerr (list aggregate_row) :=
  fun s =>
    let '(w', r) := all_metrics (world s) in
    (mkState (functions s) w' (calls s) (stdout s), r).

Definition get_all_metrics : M W exn pyval :=
  try_except
    (rows <- uncaught query_all_metrics ;;
     ret (PDict [("metrics", PList (aggregate_entry <$> rows))]))
    (fun e =>
       match e with
       | PyExc err =>
           if is_sqlite3_Error (err_class err)
           then raise (HTTPException 500
                         ("Failed to retrieve metrics: " ++ err_str err))
           else raise e
       | HTTPException _ _ => raise e
       end).

(** Every stored entry carries the identifier that retrieves it. *)
Definition ids_positional (s : State W) : Prop :=
  ∀ (k : nat) (f : function_data),
    functions s !! k = Some f -> id f = Z.of_nat k + 1.

(** The status codes of the HTTP errors a handler raises. *)
Definition status_in {A : Type} (codes : list Z) (r : outcome exn A) : Prop :=
  match r with
  | Raise (HTTPException code _) => code ∈ codes
  | _ => True
  end.

End Aggregates.

Module MoreExamples.

Definition two_rows : list aggregate_row :=
  [mkAggregate (PStr "add") (PStr "runc") (PInt 12) (PInt 0) (PInt 20)
     (PInt 3);
   mkAggregate (PStr "add") (PStr "runsc") (PInt 30) (PInt 1) (PInt 25)
     (PInt 4)].

Definition table (w : nat) : nat * outcome pyerr (list aggregate_row) :=
  (w, Return two_rows).

Definition locked (w : nat) : nat * outcome pyerr (list aggregate_row) :=
  (w, Raise (PyErr SqliteError "database is locked")).

(** The engine rejects the language. *)
Definition rejects : Collaborators nat :=
  mkCollaborators Examples.ok Examples.ok Examples.ok (fun _ _ => Examples.ok)
    (fun _ _ _ _ _ w => (w, Raise (PyErr ValueError "Unsupported language")))
    (fun _ w => (w, Return None)).

(** The engine returns a single string instead of a pair. *)
Definition returns_none : Collaborators nat :=
  mkCollaborators Examples.ok Examples.ok Examples.ok (fun _ _ => Examples.ok)
    (fun _ _ _ _ _ w => (S w, Return PNone))
    (fun _ w => (w, Return None)).

(** The engine returns a pair whose metrics lack the keys. *)
Definition bare_metrics : Collaborators nat :=
  mkCollaborators Examples.ok Examples.ok Examples.ok (fun _ _ => Examples.ok)
    (fun _ _ _ _ _ w => (S w, Return (PTuple [PStr "2"; PDict []])))
    (fun _ w => (w, Return None)).

(** The docker binary is missing. *)
Definition no_docker : Collaborators nat :=
  mkCollaborators
    (fun w => (w, Raise (PyErr FileNotFoundError "No such file: 'docker'")))
    Examples.ok Examples.ok (fun _ _ => Examples.ok)
    (fun _ _ _ _ _ w => (S w, Return Examples.sample_result))
    (fun _ w => (w, Return None)).

(** The database cannot be initialised. *)
Definition no_database : Collaborators nat :=
  mkCollaborators Examples.ok
    (fun w => (w, Raise (PyErr SqliteError "unable to open database file")))
    Examples.ok (fun _ _ => Examples.ok)
    (fun _ _ _ _ _ w => (S w, Return Examples.sample_result))
    (fun _ w => (w, Return None)).

(** A function whose settings were sent as null. *)
Definition unset : Function :=
  mkFunction "unset" "/unset" "python" 5 "runc" None.

Definition null_server : State nat := mkState [mkData unset 1] 0%nat [] [].

End MoreExamples.

(** * Facts about the handlers *)

Section HandlerFacts.

Context {W : Type} (env : Collaborators W).

Implicit Types (s : State W) (func_id : Z) (f : function_data).

Lemma out_of_range_spec func_id (fs : list function_data) :
  out_of_range func_id fs = true ↔
  func_id <= 0 ∨ Z.of_nat (length fs) < func_id.
Proof.
  unfold out_of_range. rewrite orb_true_iff, Z.gtb_lt, Z.leb_le. tauto.
Qed.

Lemma stored_in_range s func_id f :
  stored s func_id f -> out_of_range func_id (functions s) = false.
Proof.
  intros [Hpos Hlook]. apply lookup_lt_Some in Hlook.
  apply not_true_is_false. rewrite out_of_range_spec. lia.
Qed.

Lemma in_range_stored s func_id :
  out_of_range func_id (functions s) = false -> ∃ f, stored s func_id f.
Proof.
  intros Hr. apply not_true_iff_false in Hr. rewrite out_of_range_spec in Hr.
  destruct (lookup_lt_is_Some_2 (functions s) (Z.to_nat (func_id - 1)))
    as [f Hf]; [lia|].
  exists f. split; [lia | done].
Qed.

Lemma getitem_stored s func_id f :
  stored s func_id f ->
  getitem (functions s) (func_id - 1) s = (s, Return f).
Proof.
  intros [Hpos Hlook]. pose proof (lookup_lt_Some _ _ _ Hlook) as Hlt.
  unfold getitem, list_position.
  replace (0 <=? func_id - 1) with true by (symmetry; apply Z.leb_le; lia).
  replace (func_id - 1 <? Z.of_nat (length (functions s))) with true
    by (symmetry; apply Z.ltb_lt; lia).
  simpl. rewrite Hlook. reflexivity.
Qed.

Lemma settings_code_stored f (d : gmap string string) :
  settings (fn f) = Some d -> settings_code f = Return (d !! "code").
Proof. unfold settings_code. intros ->. reflexivity. Qed.

(** The two guards of the run and compare handlers, run on a stored
    function whose settings are a dictionary. *)
Ltac pass_guards Hst Hset :=
  unfold run_function_endpoint, compare_performance, bind at 1, get_functions;
  rewrite (stored_in_range _ _ _ Hst);
  unfold bind at 1; rewrite (getitem_stored _ _ _ Hst);
  unfold bind at 1, uncaught, try_except, lift;
  rewrite (settings_code_stored _ _ Hset).

(** C10: a stored function whose settings dictionary has no "code" key, or
    an empty code value, makes both the run endpoint and the compare endpoint
    raise HTTP 400; the state is left as it was, so the execution engine is
    not called. *)
Theorem no_code_is_bad_request s func_id f (d : gmap string string) :
  stored s func_id f ->
  settings (fn f) = Some d ->
  d !! "code" = None ∨ d !! "code" = Some "" ->
  run_function_endpoint env func_id s
    = (s, Raise (HTTPException 400 "No code provided in function settings"))
  ∧ compare_performance env func_id s
    = (s, Raise (HTTPException 400 "No code provided in function settings")).
Proof.
  intros Hst Hset Hcode.
  split; pass_guards Hst Hset; destruct Hcode as [-> | ->]; reflexivity.
Qed.

Lemma list_position_stored s func_id f :
  stored s func_id f ->
  list_position (functions s) (func_id - 1) = Some (Z.to_nat (func_id - 1)).
Proof.
  intros [Hpos Hlook]. pose proof (lookup_lt_Some _ _ _ Hlook) as Hlt.
  unfold list_position.
  replace (0 <=? func_id - 1) with true by (symmetry; apply Z.leb_le; lia).
  replace (func_id - 1 <? Z.of_nat (length (functions s))) with true
    by (symmetry; apply Z.ltb_lt; lia).
  reflexivity.
Qed.

Lemma engine_calls_app (cs cs' : list Call) :
  engine_calls (cs ++ cs') = (engine_calls cs ++ engine_calls cs')%list.
Proof. apply filter_app. Qed.

Lemma untouched_refl s : untouched s s.
Proof. split; reflexivity. Qed.

Ltac split_matches :=
  repeat (match goal with
          | |- context [match ?x with _ => _ end] => destruct x eqn:?
          | H : context [match ?x with _ => _ end] |- _ => destruct x eqn:?
          end; simplify_eq/=).

Ltac not_404 :=
  let d := fresh in let H := fresh in
  intros [d H]; simpl in H; discriminate H.

Lemma guarded_404_intro {A : Type} (r : State W * outcome exn A) s func_id :
  (out_of_range func_id (functions s) = true ->
   r = (s, Raise (HTTPException 404 "Function not found"))) ->
  (out_of_range func_id (functions s) = false -> ¬ is_404 r.2) ->
  guarded_404 r s func_id.
Proof.
  intros Hout Hin. unfold guarded_404, missing. rewrite <- out_of_range_spec.
  destruct (out_of_range func_id (functions s)) eqn:Hr.
  - rewrite (Hout eq_refl). simpl. split; [|done].
    split; [done | intros _; eexists; reflexivity].
  - specialize (Hin eq_refl). split; [split; [tauto | done] | tauto].
Qed.

Lemma get_function_404 s func_id :
  guarded_404 (get_function func_id s) s func_id.
Proof.
  apply guarded_404_intro; intros Hr;
    unfold get_function, bind, get_functions; rewrite Hr; [done|].
  destruct (in_range_stored _ _ Hr) as [f Hf].
  rewrite (getitem_stored _ _ _ Hf). not_404.
Qed.

Lemma update_function_404 s func_id (function : Function) :
  guarded_404 (update_function func_id function s) s func_id.
Proof.
  apply guarded_404_intro; intros Hr;
    unfold update_function, bind, get_functions; rewrite Hr; [done|].
  destruct (in_range_stored _ _ Hr) as [f Hf].
  rewrite (list_position_stored _ _ _ Hf). simpl. not_404.
Qed.

Lemma delete_function_404 s func_id :
  guarded_404 (delete_function func_id s) s func_id.
Proof.
  apply guarded_404_intro; intros Hr;
    unfold delete_function, bind, get_functions; rewrite Hr; [done|].
  destruct (in_range_stored _ _ Hr) as [f Hf].
  rewrite (list_position_stored _ _ _ Hf). simpl. not_404.
Qed.

Lemma run_function_endpoint_404 s func_id :
  guarded_404 (run_function_endpoint env func_id s) s func_id.
Proof.
  apply guarded_404_intro; intros Hr;
    unfold run_function_endpoint, bind at 1, get_functions; rewrite Hr;
    [done|].
  destruct (in_range_stored _ _ Hr) as [f Hf].
  unfold bind at 1. rewrite (getitem_stored _ _ _ Hf).
  unfold bind, uncaught, try_except, lift, call_run_function, extern,
    no_code, raise, ret.
  split_matches; not_404.
Qed.

Lemma compare_performance_404 s func_id :
  guarded_404 (compare_performance env func_id s) s func_id.
Proof.
  apply guarded_404_intro; intros Hr;
    unfold compare_performance, bind at 1, get_functions; rewrite Hr;
    [done|].
  destruct (in_range_stored _ _ Hr) as [f Hf].
  unfold bind at 1. rewrite (getitem_stored _ _ _ Hf).
  unfold bind, uncaught, try_except, lift, call_run_function, extern,
    no_code, raise, ret.
  split_matches; not_404.
Qed.

Lemma get_function_metrics_404 s func_id :
  (is_404 (get_function_metrics env func_id s).2
   ↔ missing s func_id ∨ no_metrics env s func_id)
  ∧ (is_404 (get_function_metrics env func_id s).2 ->
     untouched s (get_function_metrics env func_id s).1).
Proof.
  unfold missing, no_metrics. rewrite <- out_of_range_spec.
  remember (get_function_metrics env func_id s) as r eqn:Hres.
  unfold get_function_metrics, bind at 1, get_functions in Hres.
  destruct (out_of_range func_id (functions s)) eqn:Hr.
  - subst r. simpl. split; [|intros _; apply untouched_refl].
    split; [tauto | intros _; eexists; reflexivity].
  - destruct (in_range_stored _ _ Hr) as [f Hf].
    unfold bind at 1 in Hres. rewrite (getitem_stored _ _ _ Hf) in Hres.
    unfold bind, uncaught, try_except, extern, raise, ret in Hres.
    destruct (latest_metrics env (name (fn f)) (world s))
      as [w' [[row|]|e]] eqn:Hq; simpl in Hres.
    + subst r. split; [|not_404]. split; [not_404|].
      intros [? | (f' & w & [_ Hf'] & Hq')]; [done|].
      destruct Hf as [_ Hf]. congruence.
    + subst r. split.
      * split; [|intros _; eexists; reflexivity].
        intros _. right. exists f, w'. done.
      * intros _. split; simpl; [done|].
        rewrite engine_calls_app. simpl. apply app_nil_r.
    + destruct (is_sqlite3_Error (err_class e)); subst r; simpl.
      all: split; [|not_404]; split; [not_404|].
      all: intros [? | (f' & w & [_ Hf'] & Hq')]; [done|].
      all: destruct Hf as [_ Hf]; congruence.
Qed.

(** C9, as amended: get, update, delete, run and compare raise HTTP 404
    exactly when [func_id <= 0] or [func_id] exceeds the number of stored
    functions, and then the state is left as it was; the metrics endpoint
    raises 404 in that case and also when the function is stored but the
    metrics table has no row for its name; after its 404 the registry is as
    it was and the engine was not called.  (Collaborators raise Python
    exceptions of their own, never the handlers' HTTPException.) *)
Theorem not_found_at_the_guard s func_id (function : Function) :
  ((is_404 (get_function func_id s).2 ↔ missing s func_id)
   ∧ (is_404 (get_function func_id s).2 -> (get_function func_id s).1 = s))
  ∧ ((is_404 (update_function func_id function s).2 ↔ missing s func_id)
     ∧ (is_404 (update_function func_id function s).2 ->
        (update_function func_id function s).1 = s))
  ∧ ((is_404 (delete_function func_id s).2 ↔ missing s func_id)
     ∧ (is_404 (delete_function func_id s).2 ->
        (delete_function func_id s).1 = s))
  ∧ ((is_404 (run_function_endpoint env func_id s).2 ↔ missing s func_id)
     ∧ (is_404 (run_function_endpoint env func_id s).2 ->
        (run_function_endpoint env func_id s).1 = s))
  ∧ ((is_404 (compare_performance env func_id s).2 ↔ missing s func_id)
     ∧ (is_404 (compare_performance env func_id s).2 ->
        (compare_performance env func_id s).1 = s))
  ∧ ((is_404 (get_function_metrics env func_id s).2
      ↔ missing s func_id ∨ no_metrics env s func_id)
     ∧ (is_404 (get_function_metrics env func_id s).2 ->
        untouched s (get_function_metrics env func_id s).1)).
Proof.
  split; [apply get_function_404|].
  split; [apply update_function_404|].
  split; [apply delete_function_404|].
  split; [apply run_function_endpoint_404|].
  split; [apply compare_performance_404|].
  apply get_function_metrics_404.
Qed.

Lemma comparison_entry_reads metrics output a b c :
  reads_metrics metrics a b c ->
  comparison_entry metrics output = Return (entry a b c output).
Proof.
  intros (Ha & Hb & Hc). unfold comparison_entry. rewrite Ha, Hb, Hc.
  reflexivity.
Qed.

Lemma comparison_entry_inv metrics output e :
  comparison_entry metrics output = Return e ->
  ∃ a b c, reads_metrics metrics a b c ∧ e = entry a b c output.
Proof.
  unfold comparison_entry, reads_metrics. intros H.
  destruct (subscript metrics "response_time") as [a|]; [|done].
  destruct (subscript metrics "memory_usage") as [b|]; [|done].
  destruct (subscript metrics "cpu_usage") as [c|]; [|done].
  exists a, b, c. by simplify_eq.
Qed.

Lemma unpack2_inv r output metrics :
  unpack2 r = Return (output, metrics) -> py_iter r = Some [output; metrics].
Proof.
  unfold unpack2. destruct (py_iter r) as [[|a [|b [|c l]]]|]; try done.
  by intros [= -> ->].
Qed.

Lemma has_code_settings f source :
  has_code f source ->
  settings_code f = Return (Some source) ∧ not_code (Some source) = false.
Proof.
  intros (d & Hset & Hcode & Hne). rewrite (settings_code_stored _ _ Hset), Hcode.
  split; [done|]. simpl. by apply String.eqb_neq.
Qed.

(** The guards of run and compare, passed by a stored function with code. *)
Ltac enter Hst Hcode :=
  let Hs := fresh in let Hn := fresh in
  destruct (has_code_settings _ _ Hcode) as [Hs Hn];
  unfold run_function_endpoint, compare_performance, bind at 1, get_functions;
  rewrite (stored_in_range _ _ _ Hst);
  unfold bind at 1; rewrite (getitem_stored _ _ _ Hst);
  unfold bind at 1, uncaught, try_except, lift;
  rewrite Hs, Hn; simpl default.

(** When the run under runc raises, compare stops there: the exception
    reaches the caller and runsc is never run. *)
Lemma compare_stops_at_runc_failure s func_id f source w1 e :
  stored s func_id f ->
  has_code f source ->
  run_answer env f source "runc" (world s) = (w1, Raise e) ->
  compare_performance env func_id s
  = (mkState (functions s) w1 (calls s ++ [run_call f source "runc"])
       (stdout s),
     Raise (PyExc e)).
Proof.
  intros Hst Hcode Hrun. enter Hst Hcode.
  unfold bind, call_run_function, extern. unfold run_answer in Hrun.
  simpl. rewrite Hrun. reflexivity.
Qed.

Lemma dict_get_unique (items : list (string * pyval)) (k : string)
    (v : pyval) :
  NoDup (fst <$> items) -> (k, v) ∈ items -> dict_get items k = Some v.
Proof.
  induction items as [|[k' v'] items IH]; intros Hnd Hin;
    [by apply elem_of_nil in Hin|].
  rewrite fmap_cons in Hnd. apply NoDup_cons in Hnd as [Hfresh Hnd].
  simpl. apply elem_of_cons in Hin as [[= <- <-] | Hin].
  - by rewrite String.eqb_refl.
  - destruct (String.eqb k' k) eqn:Heq; [|by apply IH].
    apply String.eqb_eq in Heq as ->. exfalso. apply Hfresh.
    apply list_elem_of_fmap. by exists (k, v).
Qed.

(** X23: On the path where both runs return: for a stored function with
    code, when the run under runc and then the run under runsc each return a
    pair of an output and a metrics dictionary that holds response_time,
    memory_usage and cpu_usage, compare has called the engine exactly twice,
    with the same code, language, timeout and name, and answers with those
    values and the output of each backend. *)
Theorem compare_returns_both_backends s func_id f source
    w1 o1 items1 a1 b1 c1 w2 o2 items2 a2 b2 c2 :
  stored s func_id f ->
  has_code f source ->
  run_function env source (language (fn f)) (timeout (fn f)) "runc"
    (name (fn f)) (world s)
  = (w1, Return (PTuple [o1; PDict items1])) ->
  run_function env source (language (fn f)) (timeout (fn f)) "runsc"
    (name (fn f)) w1
  = (w2, Return (PTuple [o2; PDict items2])) ->
  NoDup (fst <$> items1) ->
  ("response_time", a1) ∈ items1 -> ("memory_usage", b1) ∈ items1 ->
  ("cpu_usage", c1) ∈ items1 ->
  NoDup (fst <$> items2) ->
  ("response_time", a2) ∈ items2 -> ("memory_usage", b2) ∈ items2 ->
  ("cpu_usage", c2) ∈ items2 ->
  compare_performance env func_id s
  = (mkState (functions s) w2
       (calls s
        ++ [CallRunFunction source (language (fn f)) (timeout (fn f)) "runc"
              (name (fn f));
            CallRunFunction source (language (fn f)) (timeout (fn f)) "runsc"
              (name (fn f))])
       (stdout s),
     Return
       (PDict
          [("comparison",
            PDict
              [("runc",
                PDict [("response_time", a1); ("memory_usage", b1);
                       ("cpu_usage", c1); ("output", o1)]);
               ("runsc",
                PDict [("response_time", a2); ("memory_usage", b2);
                       ("cpu_usage", c2); ("output", o2)])])])).
Proof.
  intros Hst Hcode Hrun1 Hrun2 Hnd1 Ha1 Hb1 Hc1 Hnd2 Ha2 Hb2 Hc2.
  destruct (has_code_settings _ _ Hcode) as [Hs Hn].
  unfold compare_performance, bind at 1, get_functions.
  rewrite (stored_in_range _ _ _ Hst).
  unfold bind at 1. rewrite (getitem_stored _ _ _ Hst).
  unfold bind at 1, uncaught, try_except, lift.
  rewrite Hs, Hn. simpl default.
  unfold bind, call_run_function, extern, lift, ret. simpl.
  rewrite Hrun1. simpl. rewrite Hrun2. simpl.
  unfold comparison_entry, subscript.
  rewrite (dict_get_unique items1 "response_time" a1),
    (dict_get_unique items1 "memory_usage" b1),
    (dict_get_unique items1 "cpu_usage" c1) by done.
  rewrite (dict_get_unique items2 "response_time" a2),
    (dict_get_unique items2 "memory_usage" b2),
    (dict_get_unique items2 "cpu_usage" c2) by done.
  by rewrite <- app_assoc.
Qed.

Lemma settings_code_has_code f code :
  settings_code f = Return code -> not_code code = false ->
  ∃ source, code = Some source ∧ has_code f source.
Proof.
  unfold settings_code. destruct (settings (fn f)) as [d|] eqn:Hset; [|done].
  intros [= <-] Hnot. destruct (d !! "code") as [source|] eqn:Hd; [|done].
  exists source. split; [done|]. exists d. repeat split; try done.
  simpl in Hnot. by apply String.eqb_neq.
Qed.

(** The run endpoint answers only with the first of exactly two components
    of what the engine returned. *)
Lemma run_returns_output s func_id s' response :
  run_function_endpoint env func_id s = (s', Return response) ->
  ∃ f source w' r output metrics,
    stored s func_id f ∧ has_code f source
    ∧ run_answer env f source (runtime (fn f)) (world s) = (w', Return r)
    ∧ py_iter r = Some [output; metrics]
    ∧ response = PDict [("output", output)].
Proof.
  intros H. unfold run_function_endpoint, bind at 1, get_functions in H.
  destruct (out_of_range func_id (functions s)) eqn:Hr; [done|].
  destruct (in_range_stored _ _ Hr) as [f Hf].
  unfold bind at 1 in H. rewrite (getitem_stored _ _ _ Hf) in H.
  unfold bind at 1, uncaught, try_except, lift in H.
  destruct (settings_code f) as [code|] eqn:Hsc; [|done].
  destruct (not_code code) eqn:Hnot; [done|].
  destruct (settings_code_has_code _ _ Hsc Hnot) as (source & -> & Hcode).
  unfold bind, call_run_function, extern, lift, ret in H. simpl in H.
  destruct (run_function env source (language (fn f)) (timeout (fn f))
              (runtime (fn f)) (name (fn f)) (world s))
    as [w' [r|e]] eqn:Hrun.
  - destruct (unpack2 r) as [[output metrics]|e] eqn:Hpair.
    + exists f, source, w', r, output, metrics.
      apply unpack2_inv in Hpair. by simplify_eq/=.
    + simpl in H. by split_matches.
  - simpl in H. by split_matches.
Qed.

(** Compare answers only when each run returned exactly two components and
    the second of them could be read by the three keys. *)
Lemma compare_returns_entries s func_id s' response :
  compare_performance env func_id s = (s', Return response) ->
  ∃ f source w1 r1 w2 r2 o1 m1 o2 m2 a1 b1 c1 a2 b2 c2,
    stored s func_id f ∧ has_code f source
    ∧ run_answer env f source "runc" (world s) = (w1, Return r1)
    ∧ run_answer env f source "runsc" w1 = (w2, Return r2)
    ∧ py_iter r1 = Some [o1; m1] ∧ py_iter r2 = Some [o2; m2]
    ∧ reads_metrics m1 a1 b1 c1 ∧ reads_metrics m2 a2 b2 c2
    ∧ response = comparison (entry a1 b1 c1 o1) (entry a2 b2 c2 o2).
Proof.
  intros H. unfold compare_performance, bind at 1, get_functions in H.
  destruct (out_of_range func_id (functions s)) eqn:Hr; [done|].
  destruct (in_range_stored _ _ Hr) as [f Hf].
  unfold bind at 1 in H. rewrite (getitem_stored _ _ _ Hf) in H.
  unfold bind at 1, uncaught, try_except, lift in H.
  destruct (settings_code f) as [code|] eqn:Hsc; [|done].
  destruct (not_code code) eqn:Hnot; [done|].
  destruct (settings_code_has_code _ _ Hsc Hnot) as (source & -> & Hcode).
  unfold bind, call_run_function, extern, lift, ret in H. simpl in H.
  destruct (run_function env source (language (fn f)) (timeout (fn f))
              "runc" (name (fn f)) (world s))
    as [w1 [r1|e]] eqn:Hrun1; [|done].
  destruct (unpack2 r1) as [[o1 m1]|e] eqn:Hpair1; [|done]. simpl in H.
  destruct (run_function env source (language (fn f)) (timeout (fn f))
              "runsc" (name (fn f)) w1)
    as [w2 [r2|e]] eqn:Hrun2; [|done].
  destruct (unpack2 r2) as [[o2 m2]|e] eqn:Hpair2; [|done]. simpl in H.
  destruct (comparison_entry m1 o1) as [e1|] eqn:He1; [|done].
  destruct (comparison_entry m2 o2) as [e2|] eqn:He2; [|done].
  apply comparison_entry_inv in He1 as (a1 & b1 & c1 & Hm1 & ->).
  apply comparison_entry_inv in He2 as (a2 & b2 & c2 & Hm2 & ->).
  apply unpack2_inv in Hpair1, Hpair2.
  exists f, source, w1, r1, w2, r2, o1, m1, o2, m2, a1, b1, c1, a2, b2, c2.
  by simplify_eq/=.
Qed.

(** X24: What [run_function] returns is consumed as a pair.  The run
    endpoint answers only when the engine's value has exactly two components,
    and answers with the first; compare answers only when both values have
    exactly two components and the second can be read by the keys
    response_time, memory_usage and cpu_usage, and answers with those three
    values and the output for each backend. *)
Theorem engine_result_is_a_pair s func_id s' response :
  (run_function_endpoint env func_id s = (s', Return response) ->
   ∃ f source w' r output metrics,
     stored s func_id f ∧ has_code f source
     ∧ run_answer env f source (runtime (fn f)) (world s) = (w', Return r)
     ∧ py_iter r = Some [output; metrics]
     ∧ response = PDict [("output", output)])
  ∧ (compare_performance env func_id s = (s', Return response) ->
     ∃ f source w1 r1 w2 r2 o1 m1 o2 m2 a1 b1 c1 a2 b2 c2,
       stored s func_id f ∧ has_code f source
       ∧ run_answer env f source "runc" (world s) = (w1, Return r1)
       ∧ run_answer env f source "runsc" w1 = (w2, Return r2)
       ∧ py_iter r1 = Some [o1; m1] ∧ py_iter r2 = Some [o2; m2]
       ∧ reads_metrics m1 a1 b1 c1 ∧ reads_metrics m2 a2 b2 c2
       ∧ response = comparison (entry a1 b1 c1 o1) (entry a2 b2 c2 o2)).
Proof.
  split; [apply run_returns_output | apply compare_returns_entries].
Qed.

(** X25: The run endpoint and compare hand [run_function] nothing but the
    request of the selected function.  Whatever else the two registries hold,
    and wherever the function sits in them, two invocations on functions with
    the same request in the same external world give the same outcome and
    leave the same external world. *)
Theorem execution_depends_on_request_only (s1 s2 : State W)
    (id1 id2 : Z) (f1 f2 : function_data) :
  stored s1 id1 f1 ->
  stored s2 id2 f2 ->
  same_request f1 f2 ->
  world s1 = world s2 ->
  ((run_function_endpoint env id1 s1).2 = (run_function_endpoint env id2 s2).2
   ∧ world (run_function_endpoint env id1 s1).1
     = world (run_function_endpoint env id2 s2).1)
  ∧ ((compare_performance env id1 s1).2 = (compare_performance env id2 s2).2
     ∧ world (compare_performance env id1 s1).1
       = world (compare_performance env id2 s2).1).
Proof.
  intros Hst1 Hst2 (Hcode & Hlang & Htime & Hback & Hname) Hworld.
  split.
  - destruct (run_function_endpoint env id1 s1) as [s1' res1] eqn:H1.
    destruct (run_function_endpoint env id2 s2) as [s2' res2] eqn:H2.
    unfold run_function_endpoint, get_functions in H1, H2.
    unfold bind at 1 in H1. unfold bind at 1 in H2.
    rewrite (stored_in_range _ _ _ Hst1) in H1.
    rewrite (stored_in_range _ _ _ Hst2) in H2.
    unfold bind at 1 in H1. unfold bind at 1 in H2.
    rewrite (getitem_stored _ _ _ Hst1) in H1.
    rewrite (getitem_stored _ _ _ Hst2) in H2.
    unfold bind, uncaught, try_except, lift, call_run_function, extern,
      no_code, raise, ret in H1, H2.
    rewrite Hcode, Hlang, Htime, Hback, Hname in H1.
    destruct (settings_code f2) as [code|e]; simpl in H1, H2;
      [|by simplify_eq].
    destruct (not_code code); simpl in H1, H2; [by simplify_eq|].
    rewrite Hworld in H1.
    split_matches; first [done | congruence].
  - destruct (compare_performance env id1 s1) as [s1' res1] eqn:H1.
    destruct (compare_performance env id2 s2) as [s2' res2] eqn:H2.
    unfold compare_performance, get_functions in H1, H2.
    unfold bind at 1 in H1. unfold bind at 1 in H2.
    rewrite (stored_in_range _ _ _ Hst1) in H1.
    rewrite (stored_in_range _ _ _ Hst2) in H2.
    unfold bind at 1 in H1. unfold bind at 1 in H2.
    rewrite (getitem_stored _ _ _ Hst1) in H1.
    rewrite (getitem_stored _ _ _ Hst2) in H2.
    unfold bind, uncaught, try_except, lift, call_run_function, extern,
      no_code, raise, ret in H1, H2.
    rewrite Hcode, Hlang, Htime, Hname in H1.
    destruct (settings_code f2) as [code|e]; simpl in H1, H2;
      [|by simplify_eq].
    destruct (not_code code); simpl in H1, H2; [by simplify_eq|].
    rewrite Hworld in H1.
    destruct (run_function env (default "" code) (language (fn f2))
                (timeout (fn f2)) "runc" (name (fn f2)) (world s2))
      as [w1 [r1|e1]]; simpl in H1, H2; [|by simplify_eq].
    destruct (unpack2 r1) as [[o1 m1]|e1]; simpl in H1, H2;
      [|by simplify_eq].
    destruct (run_function env (default "" code) (language (fn f2))
                (timeout (fn f2)) "runsc" (name (fn f2)) w1)
      as [w2 [r2|e2]]; simpl in H1, H2; [|by simplify_eq].
    destruct (unpack2 r2) as [[o2 m2]|e2]; simpl in H1, H2;
      [|by simplify_eq].
    destruct (comparison_entry m1 o1); simpl in H1, H2; [|by simplify_eq].
    destruct (comparison_entry m2 o2); simpl in H1, H2; by simplify_eq.
Qed.

(** C2, as amended: when [ensure_docker_images] raises in the start-up hook,
    the Docker check and the database initialisation having passed, the hook
    makes no further call: the images are tried once and no pair at all is
    pre-warmed.  It raises to its caller, a RuntimeError for every
    [Exception]: "Docker image build failed: ..." for a RuntimeError, the
    bare message for a FileNotFoundError, and "Startup failed: ..." after
    printing "Startup error: ..." for the others. *)
Theorem image_build_failure_aborts_startup s w1 w2 w3 e :
  docker_info env (world s) = (w1, Return tt) ->
  initialize_database env w1 = (w2, Return tt) ->
  ensure_docker_images env w2 = (w3, Raise e) ->
  startup_event env s
  = (mkState (functions s) w3
       (calls s ++ [CallDockerInfo; CallInitializeDatabase;
                    CallEnsureDockerImages])
       (stdout s
        ++ ["Starting up FastAPI server...";
            "Docker is running and accessible.";
            "Database schema verified and initialized."]
        ++ (if is_FileNotFoundError (err_class e) then []
            else if is_RuntimeError (err_class e) then []
            else if is_Exception (err_class e)
            then ["Startup error: " ++ err_str e]
            else [])),
     Raise (if is_FileNotFoundError (err_class e)
            then PyErr RuntimeError (err_str e)
            else if is_RuntimeError (err_class e)
            then PyErr RuntimeError
                   ("Docker image build failed: " ++ err_str e)
            else if is_Exception (err_class e)
            then PyErr RuntimeError ("Startup failed: " ++ err_str e)
            else e)).
Proof.
  intros Hdocker Hinit Hensure.
  unfold startup_event, provisioning, bind, try_except, extern, print,
    raise, ret.
  simpl. rewrite Hdocker. simpl. rewrite Hinit. simpl. rewrite Hensure.
  simpl.
  destruct (is_FileNotFoundError (err_class e)); simpl.
  { by rewrite <- ?app_assoc, ?app_nil_r. }
  destruct (is_RuntimeError (err_class e)); simpl.
  { by rewrite <- ?app_assoc, ?app_nil_r. }
  destruct (is_Exception (err_class e)); simpl.
  - by rewrite <- ?app_assoc.
  - by rewrite <- ?app_assoc, ?app_nil_r.
Qed.

End HandlerFacts.

(** C9, as stated, fails for the metrics endpoint: function 1 is stored, yet
    the endpoint raises 404 because no metrics were recorded for it. *)
Lemma metrics_not_found_for_stored_function :
  is_404 (get_function_metrics Examples.healthy 1 Examples.server).2
  ∧ ¬ missing Examples.server 1.
Proof.
  split.
  - eexists. reflexivity.
  - unfold missing. simpl. lia.
Qed.

(** * Facts about the pool and the orchestrator *)

Section PoolFacts.

Import Engine.

Variable config : PoolKey -> PoolConfig.
Variable boots : PoolKey -> nat -> bool.

Implicit Types (p : Pool) (sl : ContainerSlot) (key : PoolKey) (c : Caller).

Lemma well_formed_empty : well_formed empty_pool.
Proof. split; constructor. Qed.

(** A pool that gains one fresh identity stays well formed. *)
Lemma well_formed_gain p p' (i : nat) :
  well_formed p ->
  i ∉ slot_ids p -> (i < next_id p')%nat -> (next_id p <= next_id p')%nat ->
  slot_ids p' ≡ₚ i :: slot_ids p ->
  well_formed p'.
Proof.
  intros [Hnd Hlt] Hfresh Hi Hnext Hperm. split.
  - rewrite Hperm. by apply NoDup_cons.
  - rewrite Hperm. apply Forall_cons. split; [done|].
    eapply Forall_impl; [exact Hlt|]. simpl. lia.
Qed.

(** A pool that keeps its identities stays well formed. *)
Lemma well_formed_keep p p' :
  well_formed p ->
  (next_id p <= next_id p')%nat ->
  slot_ids p' ≡ₚ slot_ids p ->
  well_formed p'.
Proof.
  intros [Hnd Hlt] Hnext Hperm. split.
  - by rewrite Hperm.
  - rewrite Hperm. eapply Forall_impl; [exact Hlt|]. simpl. lia.
Qed.

Lemma next_id_fresh p : well_formed p -> next_id p ∉ slot_ids p.
Proof.
  intros [_ Hlt] Hin. rewrite Forall_forall in Hlt.
  specialize (Hlt _ Hin). lia.
Qed.

Lemma start_container_spec key p p1 (r : option ContainerSlot) :
  start_container boots key p = (p1, r) ->
  idle p1 = idle p ∧ leases p1 = leases p ∧ destroyed p1 = destroyed p
  ∧ next_id p1 = S (next_id p)
  ∧ ∀ sl, r = Some sl -> slot_id sl = next_id p ∧ slot_key sl = key.
Proof.
  unfold start_container. destruct (boots key (next_id p)).
  all: intros [= <- <-]; simpl.
  all: do 4 (split; [done|]).
  all: by intros ? [= <-].
Qed.

Lemma start_container_well_formed key p p1 (r : option ContainerSlot) :
  start_container boots key p = (p1, r) ->
  well_formed p ->
  well_formed p1
  ∧ slot_ids p1 = slot_ids p
  ∧ ∀ sl, r = Some sl ->
          (slot_id sl ∉ slot_ids p1) ∧ (slot_id sl < next_id p1)%nat.
Proof.
  intros Hstart Hwf.
  destruct (start_container_spec _ _ _ _ Hstart) as (Hi & Hl & Hd & Hn & Hsl).
  assert (Hids : slot_ids p1 = slot_ids p).
  { unfold slot_ids, idle_ids, leased_ids. by rewrite Hi, Hl, Hd. }
  split; [|split; [done|]].
  - apply (well_formed_keep p); [done | lia | by rewrite Hids].
  - intros sl Hr. destruct (Hsl _ Hr) as [-> _]. rewrite Hids, Hn.
    split; [by apply next_id_fresh | lia].
Qed.

Lemma start_with_retry_well_formed key p p1 (r : option ContainerSlot) :
  start_with_retry boots key p = (p1, r) ->
  well_formed p ->
  well_formed p1
  ∧ slot_ids p1 = slot_ids p
  ∧ ∀ sl, r = Some sl ->
          (slot_id sl ∉ slot_ids p1) ∧ (slot_id sl < next_id p1)%nat.
Proof.
  unfold start_with_retry. intros Hstart Hwf.
  destruct (start_container boots key p) as [p0 [sl0|]] eqn:Hfirst.
  - simplify_eq. by eapply start_container_well_formed.
  - destruct (start_container_well_formed _ _ _ _ Hfirst Hwf) as (Hwf0 & Hids0 & _).
    destruct (start_container_well_formed _ _ _ _ Hstart Hwf0) as (Hwf1 & Hids1 & Hsl).
    split; [done|]. split; [congruence | done].
Qed.

Lemma slot_ids_add_idle sl p :
  slot_ids (add_idle sl p) ≡ₚ slot_id sl :: slot_ids p.
Proof.
  unfold slot_ids, idle_ids, leased_ids, add_idle. simpl.
  rewrite fmap_app. simpl. rewrite <- app_assoc. simpl.
  by rewrite <- Permutation_middle.
Qed.

Lemma slot_ids_add_lease c sl p :
  slot_ids (add_lease c sl p) ≡ₚ slot_id sl :: slot_ids p.
Proof.
  unfold slot_ids, idle_ids, leased_ids, add_lease. simpl.
  rewrite fmap_app. simpl. rewrite <- app_assoc. simpl.
  rewrite <- Permutation_middle.
  by rewrite <- Permutation_middle.
Qed.

Lemma add_lease_in c sl p : (c, sl) ∈ leases (add_lease c sl p).
Proof.
  unfold add_lease. simpl. apply elem_of_app. right.
  by apply list_elem_of_singleton.
Qed.

Lemma pop_idle_perm key (l : list ContainerSlot) sl rest :
  pop_idle key l = Some (sl, rest) -> l ≡ₚ sl :: rest.
Proof.
  revert sl rest. induction l as [|x l IH]; intros sl rest; simpl; [done|].
  destruct (has_key key x).
  - by intros [= -> ->].
  - destruct (pop_idle key l) as [[found rest']|]; [|done].
    intros [= <- <-]. rewrite (IH _ _ eq_refl). apply Permutation_swap.
Qed.

Lemma provision_well_formed key p :
  well_formed p -> well_formed (provision config boots key p).
Proof.
  intros Hwf. unfold provision.
  destruct (total key p <? max_total (config key))%nat; [|done].
  destruct (start_container boots key p) as [p1 [sl|]] eqn:Hstart.
  - destruct (start_container_well_formed _ _ _ _ Hstart Hwf)
      as (Hwf1 & _ & Hsl).
    destruct (Hsl _ eq_refl) as [Hfresh Hlt].
    apply (well_formed_gain p1 _ (slot_id sl)); try done.
    apply slot_ids_add_idle.
  - by destruct (start_container_well_formed _ _ _ _ Hstart Hwf).
Qed.

Lemma provision_destroyed key p :
  destroyed (provision config boots key p) = destroyed p.
Proof.
  unfold provision.
  destruct (total key p <? max_total (config key))%nat; [|done].
  destruct (start_container boots key p) as [p1 [sl|]] eqn:Hstart.
  all: by destruct (start_container_spec _ _ _ _ Hstart) as (_ & _ & Hd & _).
Qed.

Lemma provision_n_well_formed key (k : nat) p :
  well_formed p ->
  well_formed (provision_n config boots key k p)
  ∧ destroyed (provision_n config boots key k p) = destroyed p.
Proof.
  revert p. induction k as [|k IH]; intros p Hwf; simpl; [done|].
  destruct (IH _ (provision_well_formed key p Hwf)) as [Hwf' Hd].
  split; [done|]. by rewrite Hd, provision_destroyed.
Qed.

Lemma replenish_well_formed key p :
  well_formed p ->
  well_formed (replenish config boots key p)
  ∧ destroyed (replenish config boots key p) = destroyed p.
Proof.
  intros Hwf. unfold replenish.
  destruct (length (idle_queue key p) <? min_idle (config key))%nat; [|done].
  split; [by apply provision_well_formed | apply provision_destroyed].
Qed.

Lemma checkout_well_formed c key p p1 (r : FailureKind + ContainerSlot) :
  checkout config boots c key p = (p1, r) ->
  well_formed p ->
  well_formed p1
  ∧ ∀ sl, r = inr sl -> (c, sl) ∈ leases p1 ∧ slot_key sl = key.
Proof.
  unfold checkout. intros Hout Hwf.
  destruct (pop_idle key (idle p)) as [[sl rest]|] eqn:Hpop.
  - simplify_eq. split.
    + destruct Hwf as [Hnd Hlt].
      assert (Hperm : slot_ids (add_lease c sl (mkPool rest (leases p)
                         (destroyed p) (next_id p) (log p))) ≡ₚ slot_ids p).
      { rewrite slot_ids_add_lease. unfold slot_ids, idle_ids. simpl.
        rewrite (pop_idle_perm _ _ _ _ Hpop). done. }
      apply (well_formed_keep p); [done | done | done].
    + intros ? [= <-]. split; [apply add_lease_in|].
      clear -Hpop. revert sl rest Hpop.
      induction (idle p) as [|x l IH]; intros sl rest; simpl; [done|].
      destruct (has_key key x) eqn:Hk.
      * intros [= <- <-]. unfold has_key in Hk. by apply bool_decide_eq_true in Hk.
      * destruct (pop_idle key l) as [[found rest']|]; [|done].
        intros [= <- <-]. by eapply IH.
  - destruct (total key p <? max_total (config key))%nat.
    + destruct (start_with_retry boots key p) as [p0 [sl|]] eqn:Hstart.
      * simplify_eq.
        destruct (start_with_retry_well_formed _ _ _ _ Hstart Hwf)
          as (Hwf0 & _ & Hsl).
        destruct (Hsl _ eq_refl) as [Hfresh Hlt]. split.
        -- apply (well_formed_gain p0 _ (slot_id sl)); try done.
           apply slot_ids_add_lease.
        -- intros sl' Heq. injection Heq as <-. split; [apply add_lease_in|].
           clear -Hstart. unfold start_with_retry in Hstart.
           destruct (start_container boots key p) as [q [sl0|]] eqn:Hfirst.
           ++ simplify_eq.
              destruct (start_container_spec _ _ _ _ Hfirst) as (_&_&_&_&Hs).
              by destruct (Hs _ eq_refl).
           ++ destruct (start_container_spec _ _ _ _ Hstart) as (_&_&_&_&Hs).
              by destruct (Hs _ eq_refl).
      * simplify_eq.
        destruct (start_with_retry_well_formed _ _ _ _ Hstart Hwf) as (?&_&_).
        split; [done|]. by intros.
    + simplify_eq. split; [done|]. by intros.
Qed.

Lemma filter_keeps_all {A : Type} (P : A -> Prop) `{∀ x, Decision (P x)}
    (l : list A) :
  Forall P l -> filter P l = l.
Proof.
  induction 1 as [|x l Hx _ IH]; [done|].
  rewrite filter_cons, decide_True by done. by rewrite IH.
Qed.

(** In a list without repeated identities, dropping the entries of one
    identity drops exactly the one entry that has it. *)
Lemma filter_out_lease (l : list (Caller * ContainerSlot)) c sl :
  NoDup ((fun x => slot_id (snd x)) <$> l) ->
  (c, sl) ∈ l ->
  (fun x => slot_id (snd x)) <$> l
  ≡ₚ slot_id sl
     :: ((fun x => slot_id (snd x))
           <$> filter (fun x => slot_id (snd x) ≠ slot_id sl) l).
Proof.
  induction l as [|[c' sl'] l IH]; intros Hnd Hin;
    [by apply elem_of_nil in Hin|].
  rewrite fmap_cons in Hnd. apply NoDup_cons in Hnd as [Hnotin Hnd].
  rewrite filter_cons. simpl in *.
  apply elem_of_cons in Hin as [[= <- <-] | Hin].
  - rewrite decide_False by tauto.
    rewrite filter_keeps_all; [done|].
    apply Forall_forall. intros x Hx Heq. apply Hnotin.
    rewrite <- Heq. apply list_elem_of_fmap. by exists x.
  - assert (slot_id sl' ≠ slot_id sl) as Hne.
    { intros Heq. apply Hnotin. rewrite Heq.
      apply list_elem_of_fmap. by exists (c, sl). }
    rewrite decide_True by done. rewrite fmap_cons. simpl.
    rewrite (IH Hnd Hin) at 1. apply Permutation_swap.
Qed.

Lemma slot_ids_release c sl p :
  well_formed p -> (c, sl) ∈ leases p ->
  slot_id sl :: slot_ids (release sl p) ≡ₚ slot_ids p.
Proof.
  intros [Hnd _] Hin. unfold slot_ids in *.
  apply NoDup_app in Hnd as (_ & _ & Hnd).
  apply NoDup_app in Hnd as (Hnd & _ & _).
  unfold leased_ids in *. simpl.
  rewrite (filter_out_lease _ _ _ Hnd Hin).
  unfold idle_ids. simpl. apply Permutation_middle.
Qed.

Lemma slot_ids_destroy sl p :
  slot_ids (destroy sl p) ≡ₚ slot_id sl :: slot_ids p.
Proof.
  unfold slot_ids, idle_ids, leased_ids, destroy. simpl.
  rewrite <- Permutation_middle. by rewrite <- Permutation_middle.
Qed.

(** Giving up a lease leaves a well-formed pool in which the identity is
    free again. *)
Lemma release_well_formed c sl p :
  well_formed p -> (c, sl) ∈ leases p ->
  well_formed (release sl p)
  ∧ (slot_id sl ∉ slot_ids (release sl p))
  ∧ (slot_id sl < next_id p)%nat.
Proof.
  intros Hwf Hin. pose proof (slot_ids_release _ _ _ Hwf Hin) as Hperm.
  destruct Hwf as [Hnd Hlt]. rewrite <- Hperm in Hnd, Hlt.
  apply NoDup_cons in Hnd as [Hfresh Hnd].
  apply Forall_cons in Hlt as [Hi Hlt].
  repeat split; done.
Qed.

Lemma checkin_well_formed c sl (ok : bool) p :
  well_formed p -> (c, sl) ∈ leases p ->
  well_formed (checkin config sl ok p).
Proof.
  intros Hwf Hin.
  destruct (release_well_formed _ _ _ Hwf Hin) as (Hwf' & Hfresh & Hlt).
  unfold checkin.
  destruct (ok && _).
  - apply (well_formed_gain (release sl p) _ (slot_id sl)); try done.
    apply (slot_ids_add_idle (mkSlot _ _ _)).
  - apply (well_formed_gain (release sl p) _ (slot_id sl)); try done.
    apply slot_ids_destroy.
Qed.

Lemma complete_well_formed c sl req b u p :
  well_formed p -> (c, sl) ∈ leases p ->
  well_formed (complete config sl req b u p).1.
Proof.
  intros Hwf Hin. unfold complete. simpl.
  destruct (killed (settle req b)); by apply (checkin_well_formed c).
Qed.

Lemma step_well_formed p p' :
  step config boots p p' -> well_formed p -> well_formed p'.
Proof.
  destruct 1 as [key n p | key p | c key p | c sl req b u p Hin]; intros Hwf.
  - by apply provision_n_well_formed.
  - by apply replenish_well_formed.
  - destruct (checkout config boots c key p) as [p1 r] eqn:Hout.
    by destruct (checkout_well_formed _ _ _ _ _ Hout Hwf).
  - by apply (complete_well_formed c).
Qed.

Lemma steps_well_formed p p' :
  rtc (step config boots) p p' -> well_formed p -> well_formed p'.
Proof. induction 1; eauto using step_well_formed. Qed.

Lemma reachable_well_formed p : reachable config boots p -> well_formed p.
Proof. intros H. eapply steps_well_formed; [exact H | apply well_formed_empty]. Qed.

Lemma same_identity_same_lease (l : list (Caller * ContainerSlot))
    (x y : Caller * ContainerSlot) :
  NoDup ((fun l => slot_id (snd l)) <$> l) ->
  x ∈ l -> y ∈ l -> slot_id (snd x) = slot_id (snd y) -> x = y.
Proof.
  induction l as [|z l IH]; intros Hnd Hx Hy Heq;
    [by apply elem_of_nil in Hx|].
  rewrite fmap_cons in Hnd. apply NoDup_cons in Hnd as [Hz Hnd].
  apply elem_of_cons in Hx as [-> | Hx];
    apply elem_of_cons in Hy as [-> | Hy]; try done.
  - exfalso. apply Hz. rewrite Heq. apply list_elem_of_fmap. by exists y.
  - exfalso. apply Hz. rewrite <- Heq. apply list_elem_of_fmap. by exists x.
  - by apply IH.
Qed.

Lemma well_formed_parts p :
  well_formed p ->
  NoDup (leased_ids p)
  ∧ (∀ i, i ∈ leased_ids p -> i ∉ idle_ids p)
  ∧ (∀ i, i ∈ destroyed p -> (i ∉ idle_ids p) ∧ (i ∉ leased_ids p)).
Proof.
  intros [Hnd _]. unfold slot_ids in Hnd.
  apply NoDup_app in Hnd as (_ & Hidle & Hnd).
  apply NoDup_app in Hnd as (Hleased & Hbusy & _).
  split; [done|]. split.
  - intros i Hi Hidle'. apply (Hidle i Hidle'), elem_of_app. by left.
  - intros i Hi. split.
    + intros Hidle'. apply (Hidle i Hidle'), elem_of_app. by right.
    + intros Hbusy'. by apply (Hbusy i Hbusy').
Qed.








(** C8: in every state the pool can reach under interleaved callers, the
    idle queue of every key has length at least zero, a slot is checked out
    to at most one caller (two leases on one identity are the same lease, and
    no identity is leased twice), and a checked-out slot is not idle. *)
Theorem slots_have_one_owner p :
  reachable config boots p ->
  (∀ key, (0 <= Z.of_nat (length (idle_queue key p)))%Z)
  ∧ (∀ c1 c2 sl1 sl2,
       (c1, sl1) ∈ leases p -> (c2, sl2) ∈ leases p ->
       slot_id sl1 = slot_id sl2 -> c1 = c2 ∧ sl1 = sl2)
  ∧ NoDup (leased_ids p)
  ∧ (∀ c sl, (c, sl) ∈ leases p -> slot_id sl ∉ idle_ids p).
Proof.
  intros Hreach. pose proof (reachable_well_formed _ Hreach) as Hwf.
  destruct (well_formed_parts _ Hwf) as (Hnd & Hbusy & _).
  split; [intros key; lia|]. split; [|split; [done|]].
  - intros c1 c2 sl1 sl2 H1 H2 Heq.
    assert ((c1, sl1) = (c2, sl2)) as [= -> ->]; [|done].
    by apply (same_identity_same_lease (leases p)).
  - intros c sl Hin. apply Hbusy.
    apply list_elem_of_fmap. by exists (c, sl).
Qed.

End PoolFacts.

(** * Facts about pre-warming at start-up *)

Section PrewarmingFacts.

Import Prewarming.

Variable config : Engine.PoolKey -> Engine.PoolConfig.
Variable boots : Engine.PoolKey -> nat -> bool.
Variable count : nat.

Implicit Types (key : Engine.PoolKey) (w : World).








End PrewarmingFacts.

(** * Facts about the interface of the engine *)

Section InterfaceFacts.

Variable config : Engine.PoolKey -> Engine.PoolConfig.
Variable boots : Engine.PoolKey -> nat -> bool.


End InterfaceFacts.

(** ** The handlers on concrete registries *)

(** The sample registry is what three POSTs to /functions/ build. *)
Example three_functions_created :
  (create_function Examples.add ;;
   create_function Examples.blank ;;
   create_function Examples.codeless)%handler Examples.empty_server
  = (Examples.server, Return (created 3)).
Proof. reflexivity. Qed.

Example add_runs :
  run_function_endpoint Examples.healthy 1 Examples.server
  = (mkState (functions Examples.server) 1%nat
       [CallRunFunction "print(1+1)" "python" 5 "runc" "add"] [],
     Return (PDict [("output", PStr "2")])).
Proof. vm_compute. reflexivity. Qed.

Example add_has_metrics :
  (get_function_metrics Examples.with_metrics 1 Examples.server).2
  = Return (metrics_of_row Examples.sample_row).
Proof. vm_compute. reflexivity. Qed.

Example healthy_startup :
  startup_event Examples.healthy Examples.empty_server
  = (mkState [] 0%nat
       [CallDockerInfo; CallInitializeDatabase; CallEnsureDockerImages;
        CallPrewarmContainers "python" "runc";
        CallPrewarmContainers "python" "runsc";
        CallPrewarmContainers "node" "runc";
        CallPrewarmContainers "node" "runsc"]
       ["Starting up FastAPI server..."; "Docker is running and accessible.";
        "Database schema verified and initialized."; "Docker images ensured.";
        "Pre-warming containers completed."],
     Return tt).
Proof. vm_compute. reflexivity. Qed.

Lemma no_code_is_bad_request_witness :
  run_function_endpoint Examples.healthy 3 Examples.server
  = (Examples.server,
     Raise (HTTPException 400 "No code provided in function settings"))
  ∧ compare_performance Examples.healthy 3 Examples.server
    = (Examples.server,
       Raise (HTTPException 400 "No code provided in function settings")).
Proof.
  apply (no_code_is_bad_request Examples.healthy Examples.server 3
           (mkData Examples.codeless 3) ∅).
  - split; [lia | reflexivity].
  - reflexivity.
  - left. reflexivity.
Defined.

Lemma add_is_stored : stored Examples.server 1 (mkData Examples.add 1).
Proof. split; [lia | reflexivity]. Qed.

Lemma add_has_code : has_code (mkData Examples.add 1) "print(1+1)".
Proof.
  exists {["code" := "print(1+1)"]}. split; [reflexivity|].
  split; [reflexivity | discriminate].
Qed.

Lemma sample_metrics_keys :
  NoDup (fst <$> [("response_time", PInt 12); ("memory_usage", PInt 20);
                  ("cpu_usage", PInt 3)])
  ∧ ("response_time", PInt 12)
    ∈ [("response_time", PInt 12); ("memory_usage", PInt 20);
       ("cpu_usage", PInt 3)]
  ∧ ("memory_usage", PInt 20)
    ∈ [("response_time", PInt 12); ("memory_usage", PInt 20);
       ("cpu_usage", PInt 3)]
  ∧ ("cpu_usage", PInt 3)
    ∈ [("response_time", PInt 12); ("memory_usage", PInt 20);
       ("cpu_usage", PInt 3)].
Proof.
  split.
  - simpl. repeat (apply NoDup_cons; split; [|]).
    4: apply NoDup_nil_2.
    all: intros Hin; repeat (apply elem_of_cons in Hin as [Hin | Hin];
                             [discriminate Hin|]).
    all: by apply elem_of_nil in Hin.
  - repeat split; repeat constructor.
Qed.

Lemma compare_returns_both_backends_witness :
  compare_performance Examples.healthy 1 Examples.server
  = (mkState (functions Examples.server) 2%nat
       [CallRunFunction "print(1+1)" "python" 5 "runc" "add";
        CallRunFunction "print(1+1)" "python" 5 "runsc" "add"] [],
     Return
       (PDict
          [("comparison",
            PDict
              [("runc",
                PDict [("response_time", PInt 12); ("memory_usage", PInt 20);
                       ("cpu_usage", PInt 3); ("output", PStr "2")]);
               ("runsc",
                PDict [("response_time", PInt 12); ("memory_usage", PInt 20);
                       ("cpu_usage", PInt 3); ("output", PStr "2")])])])).
Proof.
  destruct sample_metrics_keys as (Hunique & Ha & Hb & Hc).
  exact (compare_returns_both_backends Examples.healthy Examples.server 1
           (mkData Examples.add 1) "print(1+1)"
           1%nat (PStr "2") _ (PInt 12) (PInt 20) (PInt 3)
           2%nat (PStr "2") _ (PInt 12) (PInt 20) (PInt 3)
           add_is_stored add_has_code eq_refl eq_refl
           Hunique Ha Hb Hc Hunique Ha Hb Hc).
Defined.

(** C1: the run under runc raises and the run under runsc would return.
    Compare then raises the runc exception: the engine was called once, for
    runc only, and the caller gets no result and no metrics for either
    backend.  The other way round, when only the run under runsc raises, the
    result that runc had returned is dropped as well. *)
Theorem compare_failure_hides_other_backend :
  compare_performance Examples.runc_fails 1 Examples.server
  = (mkState (functions Examples.server) 0%nat
       [CallRunFunction "print(1+1)" "python" 5 "runc" "add"] [],
     Raise (PyExc (PyErr OtherException "container exited unexpectedly")))
  ∧ run_answer Examples.runc_fails (mkData Examples.add 1) "print(1+1)"
      "runsc" 0%nat
    = (1%nat, Return Examples.sample_result)
  ∧ compare_performance Examples.runsc_fails 1 Examples.server
    = (mkState (functions Examples.server) 1%nat
         [CallRunFunction "print(1+1)" "python" 5 "runc" "add";
          CallRunFunction "print(1+1)" "python" 5 "runsc" "add"] [],
       Raise (PyExc (PyErr OtherException "container exited unexpectedly")))
  ∧ run_answer Examples.runsc_fails (mkData Examples.add 1) "print(1+1)"
      "runc" 0%nat
    = (1%nat, Return Examples.sample_result).
Proof.
  split; [|split; [|split]].
  - apply (compare_stops_at_runc_failure Examples.runc_fails Examples.server
             1 (mkData Examples.add 1) "print(1+1)").
    + exact add_is_stored.
    + exact add_has_code.
    + reflexivity.
  - reflexivity.
  - vm_compute. reflexivity.
  - reflexivity.
Qed.

(** C4: the run under runc raises for a stored function with code.  Compare
    then has called the engine once, not twice: the call for runsc is never
    made and no result is returned for either backend. *)
Theorem compare_calls_engine_once_when_runc_raises :
  stored Examples.server 1 (mkData Examples.add 1)
  ∧ has_code (mkData Examples.add 1) "print(1+1)"
  ∧ engine_calls
      (calls (compare_performance Examples.runc_fails 1 Examples.server).1)
    = [CallRunFunction "print(1+1)" "python" 5 "runc" "add"]
  ∧ ∀ response,
      (compare_performance Examples.runc_fails 1 Examples.server).2
      ≠ Return response.
Proof.
  split; [exact add_is_stored|]. split; [exact add_has_code|].
  rewrite (compare_stops_at_runc_failure Examples.runc_fails Examples.server
             1 (mkData Examples.add 1) "print(1+1)" 0%nat
             (PyErr OtherException "container exited unexpectedly")
             add_is_stored add_has_code eq_refl).
  split; [reflexivity | by intros response].
Qed.

(** A result with the five components output, stdout, stderr, metrics and
    error cannot be destructured as [main.py] does: the run endpoint answers
    400 and compare raises. *)
Lemma five_components_are_rejected :
  py_iter Examples.five_components
  = Some [PStr "2"; PStr "2"; PStr "";
          PDict [("responseTimeMs", PInt 12); ("memoryUsageMb", PInt 20);
                 ("cpuUsagePercent", PInt 3); ("errorFlag", PBool false)];
          PNone]
  ∧ (run_function_endpoint Examples.returns_five 1 Examples.server).2
    = Raise (HTTPException 400 "too many values to unpack (expected 2)")
  ∧ (compare_performance Examples.returns_five 1 Examples.server).2
    = Raise (PyExc (PyErr ValueError "too many values to unpack (expected 2)")).
Proof. repeat split; vm_compute; reflexivity. Qed.

Lemma engine_result_is_a_pair_witness :
  ∃ f source w' r output metrics,
    stored Examples.server 1 f ∧ has_code f source
    ∧ run_answer Examples.healthy f source (runtime (fn f))
        (world Examples.server) = (w', Return r)
    ∧ py_iter r = Some [output; metrics]
    ∧ PDict [("output", PStr "2")] = PDict [("output", output)].
Proof.
  apply (proj1 (engine_result_is_a_pair Examples.healthy Examples.server 1
                  (mkState (functions Examples.server) 1%nat
                     [CallRunFunction "print(1+1)" "python" 5 "runc" "add"] [])
                  (PDict [("output", PStr "2")]))).
  vm_compute. reflexivity.
Defined.

Lemma execution_depends_on_request_only_witness :
  ((run_function_endpoint Examples.healthy 1 Examples.server).2
   = (run_function_endpoint Examples.healthy 2 Examples.other_server).2
   ∧ world (run_function_endpoint Examples.healthy 1 Examples.server).1
     = world (run_function_endpoint Examples.healthy 2 Examples.other_server).1)
  ∧ ((compare_performance Examples.healthy 1 Examples.server).2
     = (compare_performance Examples.healthy 2 Examples.other_server).2
     ∧ world (compare_performance Examples.healthy 1 Examples.server).1
       = world (compare_performance Examples.healthy 2 Examples.other_server).1).
Proof.
  apply (execution_depends_on_request_only Examples.healthy Examples.server
           Examples.other_server 1 2 (mkData Examples.add 1)
           (mkData Examples.sum 2)).
  - exact add_is_stored.
  - split; [lia | reflexivity].
  - repeat split; vm_compute; reflexivity.
  - reflexivity.
Defined.

(** ** The start-up hook on concrete collaborators *)

(** C2, as stated, fails: the image of node/runsc cannot be built, and
    start-up is aborted for every pair; python/runc is not pre-warmed
    either. *)
Lemma build_failure_blocks_every_pair :
  startup_event Examples.build_fails Examples.empty_server
  = (mkState [] 0%nat
       [CallDockerInfo; CallInitializeDatabase; CallEnsureDockerImages]
       ["Starting up FastAPI server..."; "Docker is running and accessible.";
        "Database schema verified and initialized."],
     Raise (PyErr RuntimeError
              "Docker image build failed: build of node/runsc failed"))
  ∧ CallPrewarmContainers "python" "runc"
    ∉ calls (startup_event Examples.build_fails Examples.empty_server).1.
Proof.
  split; [vm_compute; reflexivity|].
  vm_compute. intros H.
  repeat (apply elem_of_cons in H as [H | H]; [discriminate H|]).
  by apply elem_of_nil in H.
Qed.

Lemma image_build_failure_aborts_startup_witness :
  startup_event Examples.build_fails Examples.empty_server
  = (mkState [] 0%nat
       [CallDockerInfo; CallInitializeDatabase; CallEnsureDockerImages]
       ["Starting up FastAPI server..."; "Docker is running and accessible.";
        "Database schema verified and initialized."],
     Raise (PyErr RuntimeError
              "Docker image build failed: build of node/runsc failed")).
Proof.
  exact (image_build_failure_aborts_startup Examples.build_fails
           Examples.empty_server 0%nat 0%nat 0%nat
           (PyErr RuntimeError "build of node/runsc failed")
           eq_refl eq_refl eq_refl).
Defined.


Example every_failed_start_is_logged :
  Prewarming.failures
    (world (startup_event Prewarming.sample
              (mkState [] Prewarming.cold [] [])).1)
  = [("python", "runc", 0%nat); ("python", "runc", 1%nat);
     ("python", "runsc", 2%nat); ("python", "runsc", 3%nat);
     ("node", "runc", 4%nat); ("node", "runc", 5%nat);
     ("node", "runsc", 6%nat); ("node", "runsc", 7%nat)].
Proof. vm_compute. reflexivity. Qed.

(** ** The engine on a concrete pool *)

(** A run that exits in time with status zero succeeds, and its container
    goes back to the idle queue of its key. *)
Example quick_run_is_reused :
  let r := Engine.execute Engine.sample_config Engine.always_boots 1%nat
             (Engine.mkRequest "print(1+1)" "python" 5 "standard" "add")
             (Engine.Exits 120 0 "2" "") (Engine.mkUsage 20 3)
             Engine.empty_pool in
  Engine.idle r.1 = [Engine.mkSlot 0 ("python", "standard") 1]
  ∧ Engine.leases r.1 = []
  ∧ Engine.destroyed r.1 = []
  ∧ r.2.1 = Engine.mkResult "2" "2" "" true None
  ∧ r.2.2 = Engine.mkMetrics 120 20 3 false "2" "".
Proof. vm_compute. repeat split. Qed.

(** The third run on a slot with a reuse budget of three retires it. *)
Example third_run_retires :
  let request := Engine.mkRequest "print(1+1)" "python" 5 "standard" "add" in
  let run := fun p =>
    (Engine.execute Engine.sample_config Engine.always_boots 1%nat request
       (Engine.Exits 120 0 "2" "") (Engine.mkUsage 20 3) p).1 in
  Engine.idle (run (run (run Engine.empty_pool))) = []
  ∧ Engine.destroyed (run (run (run Engine.empty_pool))) = [0%nat].
Proof. vm_compute. repeat split. Qed.


Lemma slots_have_one_owner_witness :
  let key : Engine.PoolKey := ("python", "runc") in
  let step1 := Engine.prewarm Engine.sample_config Engine.always_boots key
                 1%nat Engine.empty_pool in
  let step2 := (Engine.checkout Engine.sample_config Engine.always_boots 1%nat key
                  step1).1 in
  let p := (Engine.checkout Engine.sample_config Engine.always_boots 2%nat key
              step2).1 in
  (∀ key, (0 <= Z.of_nat (length (Engine.idle_queue key p)))%Z)
  ∧ (∀ c1 c2 sl1 sl2,
       (c1, sl1) ∈ Engine.leases p -> (c2, sl2) ∈ Engine.leases p ->
       Engine.slot_id sl1 = Engine.slot_id sl2 -> c1 = c2 ∧ sl1 = sl2)
  ∧ NoDup (Engine.leased_ids p)
  ∧ (∀ c sl, (c, sl) ∈ Engine.leases p ->
             Engine.slot_id sl ∉ Engine.idle_ids p).
Proof.
  intros key step1 step2 p.
  apply (slots_have_one_owner Engine.sample_config Engine.always_boots p).
  eapply rtc_l; [apply (Engine.step_prewarm _ _ key 1%nat)|].
  eapply rtc_l; [apply (Engine.step_checkout _ _ 1%nat key)|].
  apply rtc_once. apply (Engine.step_checkout _ _ 2%nat key).
Defined.

(** * Further facts about the registry *)

Section RegistryFacts.

Context {W : Type}.

Implicit Types (s : State W) (func_id : Z) (f : function_data).

Lemma stored_lookup s func_id f :
  stored s func_id f ↔
  ∃ k : nat, func_id = Z.of_nat k + 1 ∧ functions s !! k = Some f.
Proof.
  unfold stored. split.
  - intros [Hpos Hlook]. exists (Z.to_nat (func_id - 1)). split; [lia | done].
  - intros (k & -> & Hlook). split; [lia|].
    by replace (Z.to_nat (Z.of_nat k + 1 - 1)) with k by lia.
Qed.

Lemma get_function_stored s func_id f :
  stored s func_id f -> get_function func_id s = (s, Return f).
Proof.
  intros Hst. unfold get_function, bind, get_functions.
  rewrite (stored_in_range _ _ _ Hst). by apply getitem_stored.
Qed.

Lemma get_function_inv s func_id f :
  (get_function func_id s).2 = Return f -> stored s func_id f.
Proof.
  intros Hget. unfold get_function, bind, get_functions in Hget.
  destruct (out_of_range func_id (functions s)) eqn:Hr; [done|].
  destruct (in_range_stored _ _ Hr) as [g Hg].
  rewrite (getitem_stored _ _ _ Hg) in Hget. simpl in Hget.
  by simplify_eq.
Qed.

(** X1: Reading a function back succeeds exactly on the stored ones. *)
Theorem get_function_returns_stored s func_id f :
  (get_function func_id s).2 = Return f ↔ stored s func_id f.
Proof.
  split; [apply get_function_inv|].
  intros Hst. by rewrite (get_function_stored _ _ _ Hst).
Qed.

(** The registry with one more entry at its end. *)
Lemma stored_after_append s (new : function_data) :
  let s' := mkState (functions s ++ [new]) (world s) (calls s) (stdout s) in
  stored s' (Z.of_nat (length (functions s)) + 1) new
  ∧ ∀ k f, stored s k f -> stored s' k f.
Proof.
  intros s'. split.
  - apply stored_lookup. exists (length (functions s)). split; [done|].
    simpl. by rewrite lookup_app_r, Nat.sub_diag by lia.
  - intros k f Hst. apply stored_lookup in Hst as (i & -> & Hi).
    apply stored_lookup. exists i. split; [done|]. simpl.
    by apply lookup_app_l_Some.
Qed.

(** X2: A created function gets the next identifier, can be read back under it,
    and leaves every stored function readable under its own identifier; no
    collaborator is involved. *)
Theorem create_then_get s (function : Function) :
  let n := Z.of_nat (length (functions s)) + 1 in
  let s' := mkState (functions s ++ [mkData function n]) (world s) (calls s)
              (stdout s) in
  create_function function s = (s', Return (created n))
  ∧ get_function n s' = (s', Return (mkData function n))
  ∧ ∀ k f, stored s k f -> get_function k s' = (s', Return f).
Proof.
  intros n s'.
  destruct (stored_after_append s (mkData function n)) as [Hnew Hold].
  split; [reflexivity|]. split.
  - by apply get_function_stored.
  - intros k f Hst. by apply get_function_stored, Hold.
Qed.

(** X3: An update of a stored function is read back under the same identifier
    with that identifier stored in it; the other functions and the size of the
    registry stay, and no collaborator is involved. *)
Theorem update_then_get s func_id (old : function_data) (function : Function) :
  stored s func_id old ->
  let updated := mkData function func_id in
  let s' := mkState (<[Z.to_nat (func_id - 1) := updated]> (functions s))
              (world s) (calls s) (stdout s) in
  update_function func_id function s
  = (s', Return ("Function updated", updated))
  ∧ length (functions s') = length (functions s)
  ∧ get_function func_id s' = (s', Return updated)
  ∧ ∀ k f, k ≠ func_id -> stored s k f -> get_function k s' = (s', Return f).
Proof.
  intros Hst updated s'.
  pose proof (lookup_lt_Some _ _ _ (proj2 Hst)) as Hlt.
  split; [|split; [|split]].
  - unfold update_function, bind, get_functions.
    rewrite (stored_in_range _ _ _ Hst), (list_position_stored _ _ _ Hst).
    reflexivity.
  - simpl. apply length_insert.
  - apply get_function_stored. split; [apply Hst|]. simpl.
    by apply list_lookup_insert_eq.
  - intros k f Hne [Hpos Hlook]. apply get_function_stored.
    split; [done|]. simpl. rewrite list_lookup_insert_ne; [done|].
    destruct Hst as [Hpos' _]. lia.
Qed.

Lemma delete_function_stored s func_id f :
  stored s func_id f ->
  delete_function func_id s
  = (mkState (delete (Z.to_nat (func_id - 1)) (functions s)) (world s)
       (calls s) (stdout s),
     Return deleted).
Proof.
  intros Hst. unfold delete_function, bind, get_functions.
  rewrite (stored_in_range _ _ _ Hst), (list_position_stored _ _ _ Hst).
  reflexivity.
Qed.

(** The registry without the entry of [func_id]. *)
Lemma stored_after_delete s func_id f :
  stored s func_id f ->
  let s' := mkState (delete (Z.to_nat (func_id - 1)) (functions s)) (world s)
              (calls s) (stdout s) in
  (∀ k g, k < func_id -> stored s k g -> stored s' k g)
  ∧ (∀ k g, func_id < k -> stored s k g -> stored s' (k - 1) g).
Proof.
  intros [Hpos Hlook] s'. split.
  - intros k g Hk [Hkpos Hklook]. split; [done|]. simpl.
    rewrite list_lookup_delete_lt; [done | lia].
  - intros k g Hk [Hkpos Hklook]. split; [lia|]. simpl.
    rewrite list_lookup_delete_ge by lia.
    by replace (S (Z.to_nat (k - 1 - 1))) with (Z.to_nat (k - 1)) by lia.
Qed.

(** X4: Deleting a stored function shrinks the registry by one; the functions
    before it keep their identifiers and every function after it is from
    then on reached under the identifier one below. *)
Theorem delete_shifts_later_functions s func_id f :
  stored s func_id f ->
  let s' := mkState (delete (Z.to_nat (func_id - 1)) (functions s)) (world s)
              (calls s) (stdout s) in
  delete_function func_id s = (s', Return deleted)
  ∧ Z.of_nat (length (functions s')) = Z.of_nat (length (functions s)) - 1
  ∧ (∀ k g, k < func_id -> stored s k g -> get_function k s' = (s', Return g))
  ∧ (∀ k g, func_id < k -> stored s k g ->
            get_function (k - 1) s' = (s', Return g))
  ∧ is_404 (get_function (Z.of_nat (length (functions s))) s').2.
Proof.
  intros Hst s'.
  pose proof (lookup_lt_Some _ _ _ (proj2 Hst)) as Hlt.
  destruct (stored_after_delete s func_id f Hst) as [Hbefore Hafter].
  pose proof Hst as [Hpos Hlook].
  assert (Hlen : Z.of_nat (length (functions s'))
                 = Z.of_nat (length (functions s)) - 1).
  { simpl. rewrite length_delete by eauto. lia. }
  split; [by apply (delete_function_stored s func_id f)|].
  split; [done|]. split; [|split].
  - intros k g Hk Hg. by apply get_function_stored, Hbefore.
  - intros k g Hk Hg. by apply get_function_stored, Hafter.
  - apply (proj1 (get_function_404 _ _)). unfold missing. lia.
Qed.

End RegistryFacts.

Section IdentifierFacts.

Context {W : Type}.

Implicit Types (s : State W) (func_id : Z) (f : function_data).

(** X5: While functions are only created and updated, every stored entry
    carries the identifier that retrieves it, so what [get_function] returns
    under an identifier has that identifier. *)
Theorem ids_follow_positions s func_id (function : Function) :
  ids_positional s ->
  ids_positional (create_function function s).1
  ∧ ids_positional (update_function func_id function s).1
  ∧ ∀ f, (get_function func_id s).2 = Return f -> id f = func_id.
Proof.
  intros Hids. split; [|split].
  - intros k f. simpl. intros Hlook.
    apply lookup_app_Some in Hlook as [Hlook | [Hge Hlook]]; [by apply Hids|].
    apply list_lookup_singleton_Some in Hlook as [Hk <-]. simpl. lia.
  - unfold update_function, bind, get_functions.
    destruct (out_of_range func_id (functions s)) eqn:Hr; [done|].
    destruct (in_range_stored _ _ Hr) as [old Hold].
    rewrite (list_position_stored _ _ _ Hold). simpl.
    intros k f Hlook.
    apply list_lookup_insert_Some in Hlook
      as [(<- & <- & Hlt) | [Hne Hlook]]; [|by apply Hids].
    simpl. destruct Hold. lia.
  - intros f Hget. apply get_function_inv in Hget.
    destruct Hget as [Hpos Hlook]. rewrite (Hids _ _ Hlook). lia.
Qed.

(** X6: Deleting a function that is not the last one leaves stale identifiers:
    the function that followed it is now returned under the deleted
    identifier while still carrying its own. *)
Theorem delete_leaves_stale_ids s func_id f (g : function_data) :
  ids_positional s ->
  stored s func_id f ->
  stored s (func_id + 1) g ->
  (get_function func_id (delete_function func_id s).1).2 = Return g
  ∧ id g = func_id + 1
  ∧ ¬ ids_positional (delete_function func_id s).1.
Proof.
  intros Hids Hf Hg.
  destruct (stored_after_delete s func_id f Hf) as [_ Hafter].
  rewrite (delete_function_stored _ _ _ Hf). simpl.
  specialize (Hafter (func_id + 1) g ltac:(lia) Hg).
  replace (func_id + 1 - 1) with func_id in Hafter by lia.
  rewrite (get_function_stored _ _ _ Hafter). split; [done|].
  assert (id g = func_id + 1) as Hid.
  { destruct Hg as [_ Hg]. rewrite (Hids _ _ Hg). destruct Hf. lia. }
  split; [done|]. intros Hbad.
  destruct Hafter as [_ Hlook]. specialize (Hbad _ _ Hlook).
  destruct Hf. lia.
Qed.

(** X7: After such a delete the next created function gets an identifier that
    the last stored function already carries. *)
Theorem create_after_delete_reuses_id s func_id f (last : function_data)
    (function : Function) :
  ids_positional s ->
  stored s func_id f ->
  func_id < Z.of_nat (length (functions s)) ->
  stored s (Z.of_nat (length (functions s))) last ->
  let n := Z.of_nat (length (functions s)) in
  let s' := (create_function function (delete_function func_id s).1).1 in
  (create_function function (delete_function func_id s).1).2
  = Return (created n)
  ∧ stored s' (n - 1) last
  ∧ stored s' n (mkData function n)
  ∧ id last = n.
Proof.
  intros Hids Hf Hlt Hlast n s'.
  pose proof (lookup_lt_Some _ _ _ (proj2 Hf)) as Hin.
  destruct (stored_after_delete s func_id f Hf) as [_ Hafter].
  specialize (Hafter n last Hlt Hlast).
  subst s'. rewrite (delete_function_stored _ _ _ Hf).
  set (d := mkState (delete _ _) _ _ _) in *.
  assert (Z.of_nat (length (functions d)) + 1 = n) as Hn.
  { unfold d. simpl. rewrite length_delete by (exists f; apply Hf).
    unfold n. lia. }
  destruct (stored_after_append d (mkData function n)) as [Hnew Hold].
  rewrite Hn in Hnew.
  change (create_function function (d, Return deleted).1)
    with (mkState (functions d
                   ++ [mkData function (Z.of_nat (length (functions d)) + 1)])
            (world d) (calls d) (stdout d),
          @Return exn _ (created (Z.of_nat (length (functions d)) + 1))).
  rewrite Hn. simpl fst. simpl snd.
  split; [done|]. split; [by apply Hold|]. split; [done|].
  destruct Hlast as [_ Hlook]. rewrite (Hids _ _ Hlook). unfold n. lia.
Qed.

End IdentifierFacts.

Section ExecutionFacts.

Context {W : Type} (env : Collaborators W).

Implicit Types (s : State W) (func_id : Z) (f : function_data).

Ltac cases :=
  repeat (match goal with
          | |- context [match ?x with _ => _ end] => destruct x eqn:?
          | H : context [match ?x with _ => _ end] |- _ => destruct x eqn:?
          end; simplify_eq/=).

Ltac open_handler :=
  unfold bind, uncaught, try_except, lift, call_run_function, extern,
    no_code, not_found, raise, ret.

Ltac open_handler_in H :=
  unfold bind, uncaught, try_except, lift, call_run_function, extern,
    no_code, not_found, raise, ret in H.

(** The guards of run and compare, passed by a stored function. *)
Ltac guards Hst :=
  unfold run_function_endpoint, compare_performance, get_function_metrics,
    bind at 1, get_functions;
  rewrite (stored_in_range _ _ _ Hst);
  unfold bind at 1; rewrite (getitem_stored _ _ _ Hst).

(** X8: Reading, running, comparing and asking for metrics never change the
    registry, whatever the collaborators answer. *)
Theorem readers_keep_registry s func_id :
  functions (get_function func_id s).1 = functions s
  ∧ functions (get_all_functions s).1 = functions s
  ∧ functions (run_function_endpoint env func_id s).1 = functions s
  ∧ functions (get_function_metrics env func_id s).1 = functions s
  ∧ functions (compare_performance env func_id s).1 = functions s.
Proof.
  split; [|split; [done|split; [|split]]].
  - unfold get_function, bind, get_functions.
    destruct (out_of_range func_id (functions s)) eqn:Hr; [done|].
    destruct (in_range_stored _ _ Hr) as [f Hf].
    by rewrite (getitem_stored _ _ _ Hf).
  - unfold run_function_endpoint, bind at 1, get_functions.
    destruct (out_of_range func_id (functions s)) eqn:Hr; [done|].
    destruct (in_range_stored _ _ Hr) as [f Hf].
    unfold bind at 1. rewrite (getitem_stored _ _ _ Hf).
    open_handler. by cases.
  - unfold get_function_metrics, bind at 1, get_functions.
    destruct (out_of_range func_id (functions s)) eqn:Hr; [done|].
    destruct (in_range_stored _ _ Hr) as [f Hf].
    unfold bind at 1. rewrite (getitem_stored _ _ _ Hf).
    open_handler. by cases.
  - unfold compare_performance, bind at 1, get_functions.
    destruct (out_of_range func_id (functions s)) eqn:Hr; [done|].
    destruct (in_range_stored _ _ Hr) as [f Hf].
    unfold bind at 1. rewrite (getitem_stored _ _ _ Hf).
    open_handler. by cases.
Qed.

(** X9: The run endpoint answers with an output, or with HTTP 404, 400 or 500;
    the only exceptions it lets through are the AttributeError of a null
    settings value and what is not an [Exception]. *)
Theorem run_outcomes s func_id :
  match (run_function_endpoint env func_id s).2 with
  | Return response => ∃ output, response = PDict [("output", output)]
  | Raise (HTTPException code _) => code ∈ [404; 400; 500]
  | Raise (PyExc e) =>
      err_class e = AttributeError ∨ err_class e = NonException
  end.
Proof.
  unfold run_function_endpoint, bind at 1, get_functions.
  destruct (out_of_range func_id (functions s)) eqn:Hr.
  { simpl. set_solver. }
  destruct (in_range_stored _ _ Hr) as [f Hf].
  unfold bind at 1. rewrite (getitem_stored _ _ _ Hf).
  unfold bind at 1, uncaught, try_except, lift, settings_code.
  destruct (settings (fn f)) as [d|]; simpl; [|by left].
  destruct (not_code (d !! "code")); simpl; [set_solver|].
  open_handler.
  destruct (run_function env _ _ _ _ _ _) as [w [v|e]]; simpl.
  - destruct (unpack2 v) as [[output metrics]|e] eqn:Hpair; simpl.
    + by eexists.
    + destruct (is_ValueError (err_class e)) eqn:Hv; simpl; [set_solver|].
      destruct (is_Exception (err_class e)) eqn:Hx; simpl; [set_solver|].
      right. by destruct (err_class e).
  - destruct (is_ValueError (err_class e)) eqn:Hv; simpl; [set_solver|].
    destruct (is_Exception (err_class e)) eqn:Hx; simpl; [set_solver|].
    right. by destruct (err_class e).
Qed.

(** X10: What the engine raises reaches the caller of the run endpoint as HTTP 400
    with the engine's message for a ValueError and as HTTP 500 for every
    other [Exception]; the engine was called once, with the function's own
    runtime. *)
Theorem run_maps_engine_exceptions s func_id f source w e :
  stored s func_id f ->
  has_code f source ->
  run_answer env f source (runtime (fn f)) (world s) = (w, Raise e) ->
  is_Exception (err_class e) = true ->
  run_function_endpoint env func_id s
  = (mkState (functions s) w
       (calls s ++ [run_call f source (runtime (fn f))]) (stdout s),
     Raise (if is_ValueError (err_class e)
            then HTTPException 400 (err_str e)
            else HTTPException 500 ("Execution failed: " ++ err_str e))).
Proof.
  intros Hst Hcode Hrun Hexn.
  destruct (has_code_settings _ _ Hcode) as [Hs Hn].
  guards Hst. unfold bind at 1, uncaught, try_except, lift.
  rewrite Hs, Hn. simpl default. open_handler.
  unfold run_answer in Hrun. rewrite Hrun. simpl.
  destruct (is_ValueError (err_class e)); [done|]. by rewrite Hexn.
Qed.

(** X11: A value of the engine that is not a pair does not reach the caller
    either: the wrong number of components is answered with HTTP 400 and a
    value that cannot be unpacked at all with HTTP 500. *)
Theorem run_rejects_malformed_results s func_id f source w v :
  stored s func_id f ->
  has_code f source ->
  run_answer env f source (runtime (fn f)) (world s) = (w, Return v) ->
  (∀ items, py_iter v = Some items -> length items ≠ 2%nat) ->
  ∃ code detail,
    (run_function_endpoint env func_id s).2
    = Raise (HTTPException code detail)
    ∧ (code = 400 ↔ is_Some (py_iter v))
    ∧ (code = 500 ↔ py_iter v = None).
Proof.
  intros Hst Hcode Hrun Hshape.
  destruct (has_code_settings _ _ Hcode) as [Hs Hn].
  guards Hst. unfold bind at 1, uncaught, try_except, lift.
  rewrite Hs, Hn. simpl default. open_handler.
  unfold run_answer in Hrun. rewrite Hrun. simpl. unfold unpack2.
  destruct (py_iter v) as [[|a [|b [|c items]]]|] eqn:Hiter; simpl.
  all: try (by exfalso; apply (Hshape _ eq_refl)).
  all: do 2 eexists; (split; [reflexivity|]).
  all: split; split; try done; try (intros [? ?]; done); by eauto.
Qed.

(** X12: A stored function whose settings are null makes both the run endpoint
    and compare fail with an AttributeError that no handler catches, before
    the engine is called. *)
Theorem null_settings_raise_attribute_error s func_id f :
  stored s func_id f ->
  settings (fn f) = None ->
  run_function_endpoint env func_id s
  = (s, Raise (PyExc (PyErr AttributeError
                        "'NoneType' object has no attribute 'get'")))
  ∧ compare_performance env func_id s
    = (s, Raise (PyExc (PyErr AttributeError
                          "'NoneType' object has no attribute 'get'"))).
Proof.
  intros Hst Hnull.
  split; guards Hst; unfold bind at 1, uncaught, try_except, lift,
    settings_code; rewrite Hnull; reflexivity.
Qed.

(** X13: Compare reads the metrics only after both runs: when the metrics of the
    runc run cannot be read, the runsc run has been made all the same, and
    the reading error reaches the caller uncaught. *)
Theorem compare_reads_metrics_after_both_runs
    s func_id f source w1 r1 o1 m1 w2 r2 o2 m2 e :
  stored s func_id f ->
  has_code f source ->
  run_answer env f source "runc" (world s) = (w1, Return r1) ->
  unpack2 r1 = Return (o1, m1) ->
  run_answer env f source "runsc" w1 = (w2, Return r2) ->
  unpack2 r2 = Return (o2, m2) ->
  comparison_entry m1 o1 = Raise e ->
  compare_performance env func_id s
  = (mkState (functions s) w2
       (calls s ++ [run_call f source "runc"; run_call f source "runsc"])
       (stdout s),
     Raise (PyExc e)).
Proof.
  intros Hst Hcode Hrun1 Hpair1 Hrun2 Hpair2 Hread.
  destruct (has_code_settings _ _ Hcode) as [Hs Hn].
  guards Hst. unfold bind at 1, uncaught, try_except, lift.
  rewrite Hs, Hn. simpl default. open_handler.
  unfold run_answer in *. simpl. rewrite Hrun1, Hpair1. simpl.
  rewrite Hrun2, Hpair2. simpl. rewrite Hread.
  by rewrite <- app_assoc.
Qed.

(** X15: What was just created is what the run endpoint executes: the engine is
    called once with the code, language, timeout, runtime and name of the new
    function. *)
Theorem create_then_run s (function : Function) (d : gmap string string)
    (source : string) :
  settings function = Some d ->
  d !! "code" = Some source ->
  source ≠ "" ->
  let n := Z.of_nat (length (functions s)) + 1 in
  calls (run_function_endpoint env n (create_function function s).1).1
  = (calls s ++ [CallRunFunction source (language function)
                   (timeout function) (runtime function) (name function)])%list.
Proof.
  intros Hset Hd Hne n.
  destruct (stored_after_append s (mkData function n)) as [Hst _].
  fold n in Hst.
  change ((create_function function s).1)
    with (mkState (functions s ++ [mkData function n]) (world s) (calls s)
            (stdout s)).
  set (s' := mkState _ _ _ _) in *.
  assert (has_code (mkData function n) source) as Hcode' by (by exists d).
  destruct (has_code_settings _ _ Hcode') as [Hs Hn].
  guards Hst. unfold bind at 1, uncaught, try_except, lift.
  rewrite Hs, Hn. simpl default. open_handler. simpl.
  by cases.
Qed.

(** X14: Compare raises an HTTP error only at its two guards, with the state
    left as it was; it never answers 500 itself, so whatever fails later
    reaches the caller as the Python exception it is. *)
Theorem compare_outcomes s func_id :
  match (compare_performance env func_id s).2 with
  | Return response => ∃ runc runsc, response = comparison runc runsc
  | Raise (HTTPException code _) =>
      code ∈ [404; 400] ∧ (compare_performance env func_id s).1 = s
  | Raise (PyExc e) => True
  end.
Proof.
  destruct (compare_performance env func_id s) as [s' r] eqn:Hc.
  unfold compare_performance, get_functions in Hc. unfold bind at 1 in Hc.
  destruct (out_of_range func_id (functions s)) eqn:Hr.
  { unfold not_found, raise in Hc. simplify_eq/=. split; [set_solver | done]. }
  destruct (in_range_stored _ _ Hr) as [f Hf].
  unfold bind at 1 in Hc. rewrite (getitem_stored _ _ _ Hf) in Hc.
  unfold bind at 1, uncaught, try_except, lift, settings_code in Hc.
  destruct (settings (fn f)) as [d|]; simpl in Hc; [|by simplify_eq/=].
  destruct (not_code (d !! "code")); simpl in Hc.
  { unfold no_code, raise in Hc. simplify_eq/=. split; [set_solver | done]. }
  open_handler_in Hc. simpl in Hc.
  destruct (run_function env _ _ _ "runc" _ _) as [w1 [r1|e1]];
    simpl in Hc; [|by simplify_eq/=].
  destruct (unpack2 r1) as [[o1 m1]|e1]; simpl in Hc; [|by simplify_eq/=].
  destruct (run_function env _ _ _ "runsc" _ _) as [w2 [r2|e2]];
    simpl in Hc; [|by simplify_eq/=].
  destruct (unpack2 r2) as [[o2 m2]|e2]; simpl in Hc; [|by simplify_eq/=].
  destruct (comparison_entry m1 o1); simpl in Hc; [|by simplify_eq/=].
  destruct (comparison_entry m2 o2); simpl in Hc; simplify_eq/=; [|done].
  by do 2 eexists.
Qed.

End ExecutionFacts.

Section MetricsFacts.

Context {W : Type} (env : Collaborators W).

Implicit Types (s : State W) (func_id : Z) (f : function_data).

Lemma get_function_metrics_stored s func_id f w q :
  stored s func_id f ->
  latest_metrics env (name (fn f)) (world s) = (w, q) ->
  get_function_metrics env func_id s
  = (mkState (functions s) w (calls s ++ [CallLatestMetrics (name (fn f))])
       (stdout s),
     match q with
     | Return (Some row) => Return (metrics_of_row row)
     | Return None =>
         Raise (HTTPException 404
                  ("No metrics found for function " ++ name (fn f)))
     | Raise e =>
         Raise (if is_sqlite3_Error (err_class e)
                then HTTPException 500
                       ("Failed to retrieve metrics: " ++ err_str e)
                else PyExc e)
     end).
Proof.
  intros Hst Hq. unfold get_function_metrics, bind at 1, get_functions.
  rewrite (stored_in_range _ _ _ Hst). unfold bind at 1.
  rewrite (getitem_stored _ _ _ Hst).
  unfold bind, uncaught, try_except, extern, raise, ret. rewrite Hq.
  destruct q as [[row|]|e]; simpl; try done.
  by destruct (is_sqlite3_Error (err_class e)).
Qed.

(** X16: The metrics endpoint answers with the six columns of the row that
    the query for the function's name returned, or with HTTP 404 or 500; an
    error of the connection never reaches the caller as it is, and the engine
    is never called. *)
Theorem metrics_outcomes s func_id :
  match (get_function_metrics env func_id s).2 with
  | Return response =>
      ∃ f w row,
        stored s func_id f
        ∧ latest_metrics env (name (fn f)) (world s) = (w, Return (Some row))
        ∧ response
          = PDict [("metrics",
                    PDict [("response_time", row_response_time row);
                           ("error", row_error row);
                           ("stdout", row_stdout row);
                           ("stderr", row_stderr row);
                           ("memory_usage", row_memory_usage row);
                           ("cpu_usage", row_cpu_usage row)])]
  | Raise (HTTPException code _) => code ∈ [404; 500]
  | Raise (PyExc e) => is_sqlite3_Error (err_class e) = false
  end
  ∧ engine_calls (calls (get_function_metrics env func_id s).1)
    = engine_calls (calls s).
Proof.
  destruct (out_of_range func_id (functions s)) eqn:Hr.
  - assert (get_function_metrics env func_id s
            = (s, Raise (HTTPException 404 "Function not found"))) as ->.
    { unfold get_function_metrics, bind at 1, get_functions.
      by rewrite Hr. }
    simpl. split; [set_solver | done].
  - destruct (in_range_stored _ _ Hr) as [f Hf].
    destruct (latest_metrics env (name (fn f)) (world s)) as [w q] eqn:Hq.
    rewrite (get_function_metrics_stored _ _ _ _ _ Hf Hq). simpl. split.
    + destruct q as [[row|]|e]; [by exists f, w, row | set_solver |].
      destruct (is_sqlite3_Error (err_class e)) eqn:He; [set_solver | done].
    + rewrite engine_calls_app. simpl. apply app_nil_r.
Qed.

(** X17: Metrics belong to a name, not to an identifier: two stored functions of
    the same name, in whatever registries, get the same answer in the same
    external world. *)
Theorem metrics_are_keyed_by_name (s1 s2 : State W) (id1 id2 : Z)
    (f1 f2 : function_data) :
  stored s1 id1 f1 ->
  stored s2 id2 f2 ->
  name (fn f1) = name (fn f2) ->
  world s1 = world s2 ->
  (get_function_metrics env id1 s1).2 = (get_function_metrics env id2 s2).2.
Proof.
  intros Hst1 Hst2 Hname Hworld.
  destruct (latest_metrics env (name (fn f1)) (world s1)) as [w q] eqn:Hq.
  rewrite (get_function_metrics_stored _ _ _ _ _ Hst1 Hq).
  rewrite Hname, Hworld in Hq.
  rewrite (get_function_metrics_stored _ _ _ _ _ Hst2 Hq). simpl.
  by rewrite Hname.
Qed.

End MetricsFacts.

Section AggregateFacts.

Context {W : Type}.

Variable all_metrics : W -> W * outcome pyerr (list aggregate_row).

(** X18: The aggregated metrics have no guard on the registry: the answer is one
    entry for each row of the query, in the order of the rows, or HTTP 500
    for an error of the connection, never a 404, and the registry and the
    record of calls stay as they were. *)
Theorem get_all_metrics_answers (s : State W) w q :
  all_metrics (world s) = (w, q) ->
  get_all_metrics all_metrics s
  = (mkState (functions s) w (calls s) (stdout s),
     match q with
     | Return rows => Return (PDict [("metrics", PList (aggregate_entry <$> rows))])
     | Raise e =>
         Raise (if is_sqlite3_Error (err_class e)
                then HTTPException 500
                       ("Failed to retrieve metrics: " ++ err_str e)
                else PyExc e)
     end)
  ∧ ¬ is_404 (get_all_metrics all_metrics s).2
  ∧ ∀ rows, q = Return rows ->
      ∃ entries,
        (get_all_metrics all_metrics s).2
        = Return (PDict [("metrics", PList entries)])
        ∧ length entries = length rows
        ∧ ∀ (k : nat) row, rows !! k = Some row ->
            ∃ entry, entries !! k = Some entry
              ∧ subscript entry "function_name" = Return (agg_function_name row)
              ∧ subscript entry "runtime" = Return (agg_runtime row)
              ∧ subscript entry "error_count" = Return (agg_error_count row).
Proof.
  intros Hq.
  assert (Heq : get_all_metrics all_metrics s
    = (mkState (functions s) w (calls s) (stdout s),
       match q with
       | Return rows =>
           Return (PDict [("metrics", PList (aggregate_entry <$> rows))])
       | Raise e =>
           Raise (if is_sqlite3_Error (err_class e)
                  then HTTPException 500
                         ("Failed to retrieve metrics: " ++ err_str e)
                  else PyExc e)
       end)).
  { unfold get_all_metrics, query_all_metrics, bind, uncaught, try_except,
      raise, ret. rewrite Hq.
    destruct q as [rows|e]; simpl; [done|].
    by destruct (is_sqlite3_Error (err_class e)). }
  rewrite Heq. split; [done|]. split.
  - intros [detail Hd]. simpl in Hd. destruct q as [rows|e]; [done|].
    by destruct (is_sqlite3_Error (err_class e)).
  - intros rows ->. simpl. eexists. split; [reflexivity|]. split.
    + by rewrite length_fmap.
    + intros k row Hk. exists (aggregate_entry row).
      rewrite list_lookup_fmap, Hk. done.
Qed.

End AggregateFacts.

Section StartupFacts.

Context {W : Type} (env : Collaborators W).

Implicit Types (s : State W).

Ltac startup :=
  unfold startup_event, provisioning, bind, try_except, extern, print,
    raise, ret.

Ltac call :=
  match goal with
  | |- context [docker_info ?e ?w] =>
      destruct (docker_info e w) as [? [[]|?]] eqn:?
  | |- context [initialize_database ?e ?w] =>
      destruct (initialize_database e w) as [? [[]|?]] eqn:?
  | |- context [ensure_docker_images ?e ?w] =>
      destruct (ensure_docker_images e w) as [? [[]|?]] eqn:?
  | |- context [prewarm_containers ?e ?l ?r ?w] =>
      destruct (prewarm_containers e l r w) as [? [[]|?]] eqn:?
  end; simpl.

Ltac class :=
  match goal with
  | |- context [is_CalledProcessError ?c] =>
      destruct (is_CalledProcessError c) eqn:?
  | |- context [is_FileNotFoundError ?c] =>
      destruct (is_FileNotFoundError c) eqn:?
  | |- context [is_RuntimeError ?c] => destruct (is_RuntimeError c) eqn:?
  | |- context [is_Exception ?c] => destruct (is_Exception c) eqn:?
  end; simpl.

(** X19: A start-up that returns has made the seven calls in their order, printed
    its five lines and left the registry as it was. *)
Theorem startup_success s s' :
  startup_event env s = (s', Return tt) ->
  functions s' = functions s
  ∧ calls s'
    = (calls s ++ [CallDockerInfo; CallInitializeDatabase;
                   CallEnsureDockerImages;
                   CallPrewarmContainers "python" "runc";
                   CallPrewarmContainers "python" "runsc";
                   CallPrewarmContainers "node" "runc";
                   CallPrewarmContainers "node" "runsc"])%list
  ∧ stdout s'
    = (stdout s ++ ["Starting up FastAPI server...";
                    "Docker is running and accessible.";
                    "Database schema verified and initialized.";
                    "Docker images ensured.";
                    "Pre-warming containers completed."])%list.
Proof.
  startup. simpl. repeat call; repeat class.
  all: intros H; simplify_eq/=.
  rewrite <- !app_assoc. done.
Qed.

(** X20: When the Docker check raises, nothing else is called: a
    CalledProcessError becomes the RuntimeError "Docker is not running or
    accessible.", and any other exception, a missing docker binary included,
    reaches the caller as it is. *)
Theorem docker_check_failure s w e :
  docker_info env (world s) = (w, Raise e) ->
  startup_event env s
  = (mkState (functions s) w (calls s ++ [CallDockerInfo])
       (stdout s ++ ["Starting up FastAPI server..."]),
     Raise (if is_CalledProcessError (err_class e)
            then PyErr RuntimeError "Docker is not running or accessible."
            else e)).
Proof.
  intros Hdocker. startup. simpl. rewrite Hdocker. simpl.
  by destruct (is_CalledProcessError (err_class e)).
Qed.

(** X21: Once the Docker check has passed, every [Exception] of the database
    initialisation, of the image build or of pre-warming leaves the start-up
    hook as a RuntimeError, and the registry is as it was. *)
Theorem provisioning_failure_is_runtime_error s w s' e :
  docker_info env (world s) = (w, Return tt) ->
  startup_event env s = (s', Raise e) ->
  functions s' = functions s
  ∧ (err_class e = RuntimeError ∨ err_class e = NonException).
Proof.
  intros Hdocker. startup. simpl. rewrite Hdocker. simpl.
  repeat call; repeat class.
  all: intros H; simplify_eq/=; split; try done; auto.
  all: right; by destruct (err_class _).
Qed.

(** X22: A failure of the database initialisation is labelled by its class, not
    by the step: a RuntimeError is reported as a failed image build, a
    FileNotFoundError with its bare message, and only the remaining
    exceptions are printed and reported as a failed start-up.  The images are
    not built and nothing is pre-warmed. *)
Theorem database_failure_is_labelled_by_class s w w' e :
  docker_info env (world s) = (w, Return tt) ->
  initialize_database env w = (w', Raise e) ->
  is_Exception (err_class e) = true ->
  startup_event env s
  = (mkState (functions s) w'
       (calls s ++ [CallDockerInfo; CallInitializeDatabase])
       (stdout s ++ ["Starting up FastAPI server...";
                     "Docker is running and accessible."]
        ++ (if is_FileNotFoundError (err_class e) then []
            else if is_RuntimeError (err_class e) then []
            else ["Startup error: " ++ err_str e])),
     Raise (PyErr RuntimeError
              (if is_FileNotFoundError (err_class e) then err_str e
               else if is_RuntimeError (err_class e)
               then "Docker image build failed: " ++ err_str e
               else "Startup failed: " ++ err_str e))).
Proof.
  intros Hdocker Hdb Hexn. startup. simpl. rewrite Hdocker. simpl.
  rewrite Hdb. simpl.
  destruct (is_FileNotFoundError (err_class e)); simpl.
  { by rewrite <- ?app_assoc, ?app_nil_r. }
  destruct (is_RuntimeError (err_class e)); simpl.
  { by rewrite <- ?app_assoc, ?app_nil_r. }
  rewrite Hexn. simpl. by rewrite <- ?app_assoc.
Qed.

End StartupFacts.

(** ** The further facts on concrete registries *)

Lemma blank_is_stored : stored Examples.server 2 (mkData Examples.blank 2).
Proof. split; [lia | reflexivity]. Qed.

Lemma codeless_is_stored :
  stored Examples.server 3 (mkData Examples.codeless 3).
Proof. split; [lia | reflexivity]. Qed.

Lemma server_ids_positional : ids_positional Examples.server.
Proof.
  intros k f Hlook. destruct k as [|[|[|k]]]; simpl in Hlook.
  all: by simplify_eq.
Qed.

Lemma update_then_get_witness :
  let updated := mkData Examples.sum 2 in
  let s' := mkState (<[Z.to_nat (2 - 1) := updated]>
                       (functions Examples.server))
              (world Examples.server) (calls Examples.server)
              (stdout Examples.server) in
  update_function 2 Examples.sum Examples.server
  = (s', Return ("Function updated", updated))
  ∧ length (functions s') = length (functions Examples.server)
  ∧ get_function 2 s' = (s', Return updated)
  ∧ ∀ k f, k ≠ 2 -> stored Examples.server k f ->
           get_function k s' = (s', Return f).
Proof.
  apply (update_then_get Examples.server 2 (mkData Examples.blank 2)
           Examples.sum).
  exact blank_is_stored.
Defined.

Lemma delete_shifts_later_functions_witness :
  let s' := mkState (delete (Z.to_nat (1 - 1)) (functions Examples.server))
              (world Examples.server) (calls Examples.server)
              (stdout Examples.server) in
  delete_function 1 Examples.server = (s', Return deleted)
  ∧ Z.of_nat (length (functions s'))
    = Z.of_nat (length (functions Examples.server)) - 1
  ∧ (∀ k g, k < 1 -> stored Examples.server k g ->
            get_function k s' = (s', Return g))
  ∧ (∀ k g, 1 < k -> stored Examples.server k g ->
            get_function (k - 1) s' = (s', Return g))
  ∧ is_404 (get_function (Z.of_nat (length (functions Examples.server)))
              s').2.
Proof.
  apply (delete_shifts_later_functions Examples.server 1
           (mkData Examples.add 1)).
  exact add_is_stored.
Defined.

Lemma ids_follow_positions_witness :
  ids_positional (create_function Examples.sum Examples.server).1
  ∧ ids_positional (update_function 2 Examples.sum Examples.server).1
  ∧ ∀ f, (get_function 2 Examples.server).2 = Return f -> id f = 2.
Proof.
  apply (ids_follow_positions Examples.server 2 Examples.sum).
  exact server_ids_positional.
Defined.

Lemma delete_leaves_stale_ids_witness :
  (get_function 1 (delete_function 1 Examples.server).1).2
  = Return (mkData Examples.blank 2)
  ∧ id (mkData Examples.blank 2) = 1 + 1
  ∧ ¬ ids_positional (delete_function 1 Examples.server).1.
Proof.
  apply (delete_leaves_stale_ids Examples.server 1 (mkData Examples.add 1)
           (mkData Examples.blank 2)).
  - exact server_ids_positional.
  - exact add_is_stored.
  - exact blank_is_stored.
Defined.

Lemma create_after_delete_reuses_id_witness :
  let n := Z.of_nat (length (functions Examples.server)) in
  let s' := (create_function Examples.sum
               (delete_function 1 Examples.server).1).1 in
  (create_function Examples.sum (delete_function 1 Examples.server).1).2
  = Return (created n)
  ∧ stored s' (n - 1) (mkData Examples.codeless 3)
  ∧ stored s' n (mkData Examples.sum n)
  ∧ id (mkData Examples.codeless 3) = n.
Proof.
  apply (create_after_delete_reuses_id Examples.server 1
           (mkData Examples.add 1) (mkData Examples.codeless 3)
           Examples.sum).
  - exact server_ids_positional.
  - exact add_is_stored.
  - simpl. lia.
  - exact codeless_is_stored.
Defined.

Lemma run_maps_engine_exceptions_witness :
  run_function_endpoint MoreExamples.rejects 1 Examples.server
  = (mkState (functions Examples.server) 0%nat
       (calls Examples.server
        ++ [run_call (mkData Examples.add 1) "print(1+1)"
              (runtime (fn (mkData Examples.add 1)))])
       (stdout Examples.server),
     Raise (if is_ValueError
                 (err_class (PyErr ValueError "Unsupported language"))
            then HTTPException 400
                   (err_str (PyErr ValueError "Unsupported language"))
            else HTTPException 500
                   ("Execution failed: "
                    ++ err_str (PyErr ValueError "Unsupported language")))).
Proof.
  apply (run_maps_engine_exceptions MoreExamples.rejects Examples.server 1
           (mkData Examples.add 1) "print(1+1)" 0%nat
           (PyErr ValueError "Unsupported language")).
  - exact add_is_stored.
  - exact add_has_code.
  - reflexivity.
  - reflexivity.
Defined.

Lemma run_rejects_malformed_results_witness :
  ∃ code detail,
    (run_function_endpoint Examples.returns_five 1 Examples.server).2
    = Raise (HTTPException code detail)
    ∧ (code = 400 ↔ is_Some (py_iter Examples.five_components))
    ∧ (code = 500 ↔ py_iter Examples.five_components = None).
Proof.
  apply (run_rejects_malformed_results Examples.returns_five Examples.server
           1 (mkData Examples.add 1) "print(1+1)" 1%nat
           Examples.five_components).
  - exact add_is_stored.
  - exact add_has_code.
  - reflexivity.
  - intros items [= <-]. simpl. lia.
Defined.

Lemma null_settings_raise_attribute_error_witness :
  run_function_endpoint Examples.healthy 1 MoreExamples.null_server
  = (MoreExamples.null_server,
     Raise (PyExc (PyErr AttributeError
                     "'NoneType' object has no attribute 'get'")))
  ∧ compare_performance Examples.healthy 1 MoreExamples.null_server
    = (MoreExamples.null_server,
       Raise (PyExc (PyErr AttributeError
                       "'NoneType' object has no attribute 'get'"))).
Proof.
  apply (null_settings_raise_attribute_error Examples.healthy
           MoreExamples.null_server 1 (mkData MoreExamples.unset 1)).
  - split; [lia | reflexivity].
  - reflexivity.
Defined.

Lemma compare_reads_metrics_after_both_runs_witness :
  compare_performance MoreExamples.bare_metrics 1 Examples.server
  = (mkState (functions Examples.server) 2%nat
       (calls Examples.server
        ++ [run_call (mkData Examples.add 1) "print(1+1)" "runc";
            run_call (mkData Examples.add 1) "print(1+1)" "runsc"])
       (stdout Examples.server),
     Raise (PyExc (PyErr KeyError "'response_time'"))).
Proof.
  apply (compare_reads_metrics_after_both_runs MoreExamples.bare_metrics
           Examples.server 1 (mkData Examples.add 1) "print(1+1)"
           1%nat (PTuple [PStr "2"; PDict []]) (PStr "2") (PDict [])
           2%nat (PTuple [PStr "2"; PDict []]) (PStr "2") (PDict [])).
  - exact add_is_stored.
  - exact add_has_code.
  - reflexivity.
  - reflexivity.
  - reflexivity.
  - reflexivity.
  - reflexivity.
Defined.

Lemma create_then_run_witness :
  let n := Z.of_nat (length (functions Examples.server)) + 1 in
  calls (run_function_endpoint Examples.healthy n
           (create_function Examples.sum Examples.server).1).1
  = (calls Examples.server
     ++ [CallRunFunction "print(1+1)" (language Examples.sum)
           (timeout Examples.sum) (runtime Examples.sum)
           (name Examples.sum)])%list.
Proof.
  apply (create_then_run Examples.healthy Examples.server Examples.sum
           {["code" := "print(1+1)"; "memo" := "kept"]} "print(1+1)").
  - reflexivity.
  - reflexivity.
  - discriminate.
Defined.

Lemma metrics_are_keyed_by_name_witness :
  (get_function_metrics Examples.with_metrics 1 Examples.server).2
  = (get_function_metrics Examples.with_metrics 2 Examples.other_server).2.
Proof.
  apply (metrics_are_keyed_by_name Examples.with_metrics Examples.server
           Examples.other_server 1 2 (mkData Examples.add 1)
           (mkData Examples.sum 2)).
  - exact add_is_stored.
  - split; [lia | reflexivity].
  - reflexivity.
  - reflexivity.
Defined.

Lemma get_all_metrics_answers_witness :
  ¬ is_404 (get_all_metrics MoreExamples.locked Examples.empty_server).2
  ∧ (get_all_metrics MoreExamples.locked Examples.empty_server).2
    = Raise (HTTPException 500
               "Failed to retrieve metrics: database is locked")
  ∧ ∃ entries,
      (get_all_metrics MoreExamples.table Examples.empty_server).2
      = Return (PDict [("metrics", PList entries)])
      ∧ length entries = 2%nat.
Proof.
  destruct (get_all_metrics_answers MoreExamples.locked Examples.empty_server
              0%nat (Raise (PyErr SqliteError "database is locked")) eq_refl)
    as (Hlocked & Hno404 & _).
  destruct (get_all_metrics_answers MoreExamples.table Examples.empty_server
              0%nat (Return MoreExamples.two_rows) eq_refl)
    as (_ & _ & Hrows).
  destruct (Hrows _ eq_refl) as (entries & Hentries & Hlen & _).
  split; [exact Hno404|]. split; [by rewrite Hlocked|].
  exists entries. split; [exact Hentries | exact Hlen].
Defined.

Lemma startup_success_witness :
  let s' := (startup_event Examples.healthy Examples.empty_server).1 in
  functions s' = functions Examples.empty_server
  ∧ calls s'
    = (calls Examples.empty_server
       ++ [CallDockerInfo; CallInitializeDatabase; CallEnsureDockerImages;
           CallPrewarmContainers "python" "runc";
           CallPrewarmContainers "python" "runsc";
           CallPrewarmContainers "node" "runc";
           CallPrewarmContainers "node" "runsc"])%list
  ∧ stdout s'
    = (stdout Examples.empty_server
       ++ ["Starting up FastAPI server...";
           "Docker is running and accessible.";
           "Database schema verified and initialized.";
           "Docker images ensured.";
           "Pre-warming containers completed."])%list.
Proof.
  intros s'.
  apply (startup_success Examples.healthy Examples.empty_server s').
  vm_compute. reflexivity.
Defined.

Lemma docker_check_failure_witness :
  startup_event MoreExamples.no_docker Examples.empty_server
  = (mkState (functions Examples.empty_server) 0%nat
       (calls Examples.empty_server ++ [CallDockerInfo])
       (stdout Examples.empty_server ++ ["Starting up FastAPI server..."]),
     Raise (if is_CalledProcessError
                 (err_class (PyErr FileNotFoundError "No such file: 'docker'"))
            then PyErr RuntimeError "Docker is not running or accessible."
            else PyErr FileNotFoundError "No such file: 'docker'")).
Proof.
  apply (docker_check_failure MoreExamples.no_docker Examples.empty_server
           0%nat (PyErr FileNotFoundError "No such file: 'docker'")).
  reflexivity.
Defined.

Lemma provisioning_failure_is_runtime_error_witness :
  let r := startup_event MoreExamples.no_database Examples.empty_server in
  functions r.1 = functions Examples.empty_server
  ∧ (err_class (PyErr RuntimeError
                  "Startup failed: unable to open database file")
     = RuntimeError
     ∨ err_class (PyErr RuntimeError
                    "Startup failed: unable to open database file")
       = NonException).
Proof.
  intros r.
  apply (provisioning_failure_is_runtime_error MoreExamples.no_database
           Examples.empty_server 0%nat r.1
           (PyErr RuntimeError "Startup failed: unable to open database file")).
  - reflexivity.
  - vm_compute. reflexivity.
Defined.

Lemma database_failure_is_labelled_by_class_witness :
  startup_event MoreExamples.no_database Examples.empty_server
  = (mkState [] 0%nat [CallDockerInfo; CallInitializeDatabase]
       ["Starting up FastAPI server..."; "Docker is running and accessible.";
        "Startup error: unable to open database file"],
     Raise (PyErr RuntimeError "Startup failed: unable to open database file")).
Proof.
  exact (database_failure_is_labelled_by_class MoreExamples.no_database
           Examples.empty_server 0%nat 0%nat
           (PyErr SqliteError "unable to open database file")
           eq_refl eq_refl eq_refl).
Defined.
